(** * create-test-image.py: the wire-harness placeholder image generator

    The script is a flat sequence of calls into the Pillow imaging library.
    It is embedded here as a program in a state-and-exception monad over a
    [World] holding the image heap, the module namespace, the file system,
    standard output and the trace of library calls.  The parts of Pillow
    whose behaviour the script cannot fix (which glyph pixels a string
    covers, whether the default font loads, whether the output file can be
    opened, the compressed JPEG scan) are fields of an environment [Env].

    The script is run over two models of text drawing.  In [main] the
    renderer has its default font at hand, which describes every run that
    gets through the drawing.  In [main_ctx] the drawing context loads the
    default font for itself at the first text, as Pillow does, so that a
    font failure that lasts ends the run there; [context_run_agrees]
    relates the two. *)

From Stdlib Require Import ZArith Lia Ascii String.
From stdpp Require Import base option list strings gmap.

Local Open Scope string_scope.
Local Open Scope Z_scope.

(** ** Colours and the canvas *)

Record Color := RGB { c_r : Z; c_g : Z; c_b : Z }.

(** The entries of Pillow's [ImageColor.colormap] that the script names. *)
Definition colormap : list (string * Color) :=
  [ ("white", RGB 255 255 255);
    ("red",   RGB 255 0 0);
    ("black", RGB 0 0 0);
    ("gray",  RGB 128 128 128) ].

Fixpoint assoc (key : string) (table : list (string * Color)) : option Color :=
  match table with
  | [] => None
  | (k, v) :: rest => if String.eqb k key then Some v else assoc key rest
  end.

Definition getrgb (name : string) : option Color := assoc name colormap.

(** An image held in memory: its mode, its size and its raster.  The raster
    is a total function; only coordinates inside the size are pixels. *)
Record Canvas := mkCanvas {
  im_mode : string;
  im_width : Z;
  im_height : Z;
  im_px : Z -> Z -> Color
}.

Definition in_image (im : Canvas) (x y : Z) : bool :=
  (0 <=? x) && (x <? im_width im) && (0 <=? y) && (y <? im_height im).

(** The pixel of the raster at a coordinate; there is none outside the
    width and the height of the image. *)
Definition getpixel (im : Canvas) (xy : Z * Z) : option Color :=
  let '(x, y) := xy in
  if in_image im x y then Some (im_px im x y) else None.

Definition blank (mode : string) (w h : Z) (c : Color) : Canvas :=
  mkCanvas mode w h (fun _ _ => c).

(** Pillow's [rectangle] takes a box [x0, y0, x1, y1] that includes both
    of its corners, and fills the part of it that lies inside the image. *)
Definition in_box (x0 y0 x1 y1 x y : Z) : bool :=
  (x0 <=? x) && (x <=? x1) && (y0 <=? y) && (y <=? y1).

Definition fill_rect (im : Canvas) (x0 y0 x1 y1 : Z) (ink : Color) : Canvas :=
  mkCanvas (im_mode im) (im_width im) (im_height im)
    (fun x y => if in_image im x y && in_box x0 y0 x1 y1 x y
                then ink else im_px im x y).

(** Pillow draws text by pasting the ink through an 8-bit coverage mask of
    the glyphs, channel by channel:
    [DIV255 (old * (255 - mask) + ink * mask)] with its shift-based
    division by 255.  Where the mask is 0 the pixel keeps its value. *)
Definition DIV255 (a : Z) : Z :=
  let tmp := a + 128 in Z.shiftr (Z.shiftr tmp 8 + tmp) 8.

Definition BLEND (mask old ink : Z) : Z :=
  DIV255 (old * (255 - mask) + ink * mask).

Definition blend_color (mask : Z) (old ink : Color) : Color :=
  RGB (BLEND mask (c_r old) (c_r ink))
      (BLEND mask (c_g old) (c_g ink))
      (BLEND mask (c_b old) (c_b ink)).

Definition coverage (b : Byte.byte) : Z := Z.of_N (Byte.to_N b).

Definition paste_mask (im : Canvas) (mask : Z -> Z -> Byte.byte) (ink : Color)
  : Canvas :=
  mkCanvas (im_mode im) (im_width im) (im_height im)
    (fun x y => if in_image im x y
                then blend_color (coverage (mask x y)) (im_px im x y) ink
                else im_px im x y).

(** ** Python values, exceptions and the environment *)

Inductive Font := FontObj (id : nat).

Inductive Exn :=
| NameError (name : string)
| TypeError
| ValueError
| OSError (errno : Z)
| KeyboardInterrupt
| OtherError (name : string).

Inductive Value :=
| VNone
| VImage (h : nat)
| VDraw (h : nat)
| VFont (f : Font).

Inductive Result (A : Type) :=
| Ok (a : A)
| Raise (e : Exn).
Arguments Ok {A} a.
Arguments Raise {A} e.

(** What the JPEG encoder writes: the frame header carries the format
    parameters and the pixel dimensions, the scan is the codec's. *)
Record File := mkFile {
  f_format : string;
  f_width : Z;
  f_height : Z;
  f_quality : Z;
  f_scan : list Byte.byte
}.

Record Env := mkEnv {
  (** outcome of the n-th call of [ImageFont.load_default] *)
  font_load : nat -> Result Font;
  (** coverage that rendering [text] with [font] and [anchor] at [xy]
      gives the pixel (x, y) *)
  text_mask : option Font -> string -> string -> Z * Z -> Z -> Z -> Byte.byte;
  (** error, if any, of opening a path for writing *)
  open_for_write : string -> option Exn;
  (** compressed scan of an image at a quality *)
  jpeg_scan : Canvas -> Z -> list Byte.byte
}.

(** ** The world and the trace of library calls *)

Inductive Event :=
| EvNew (mode : string) (size : Z * Z) (color : string)
| EvDraw (h : nat)
| EvLoadDefault
| EvText (xy : Z * Z) (text : string) (fill : string) (font : option Font)
         (anchor : string)
| EvRectangle (box : list Z) (fill : string)
| EvSave (path fmt : string) (quality : Z)
| EvPrint (s : string).

Record World := mkWorld {
  heap : list Canvas;
  globals : gmap string Value;
  files : gmap string File;
  stdout : string;
  font_calls : nat;
  log : list Event;
  (** the default font the drawing context has loaded for itself, if any *)
  draw_font : option Font
}.

Definition init (fs : gmap string File) : World :=
  mkWorld [] ∅ fs EmptyString 0%nat [] None.

Definition emit (ev : Event) (w : World) : World :=
  mkWorld (heap w) (globals w) (files w) (stdout w) (font_calls w)
          (log w ++ [ev]) (draw_font w).

Definition set_heap (hp : list Canvas) (w : World) : World :=
  mkWorld hp (globals w) (files w) (stdout w) (font_calls w) (log w)
          (draw_font w).

Definition set_global (x : string) (v : Value) (w : World) : World :=
  mkWorld (heap w) (<[x := v]> (globals w)) (files w) (stdout w)
          (font_calls w) (log w) (draw_font w).

Definition set_file (p : string) (f : File) (w : World) : World :=
  mkWorld (heap w) (globals w) (<[p := f]> (files w)) (stdout w)
          (font_calls w) (log w) (draw_font w).

Definition write_stdout (s : string) (w : World) : World :=
  mkWorld (heap w) (globals w) (files w) (stdout w +:+ s) (font_calls w)
          (log w) (draw_font w).

Definition count_font_call (w : World) : World :=
  mkWorld (heap w) (globals w) (files w) (stdout w) (S (font_calls w))
          (log w) (draw_font w).

Definition set_draw_font (f : Font) (w : World) : World :=
  mkWorld (heap w) (globals w) (files w) (stdout w) (font_calls w) (log w)
          (Some f).

(** ** The monad of script statements *)

Definition M (A : Type) : Type := World -> Result A * World.

Definition ret {A} (a : A) : M A := fun w => (Ok a, w).

Definition bind {A B} (m : M A) (k : A -> M B) : M B :=
  fun w => match m w with
           | (Ok a, w') => k a w'
           | (Raise e, w') => (Raise e, w')
           end.

Definition raise {A} (e : Exn) : M A := fun w => (Raise e, w).

Definition modify (f : World -> World) : M unit := fun w => (Ok tt, f w).

Definition gets {A} (f : World -> A) : M A := fun w => (Ok (f w), w).

(** [try: body except: handler] with a bare [except]: every exception is
    caught, and what [body] did before raising stays done. *)
Definition try_except {A} (body handler : M A) : M A :=
  fun w => match body w with
           | (Ok a, w') => (Ok a, w')
           | (Raise _, w') => handler w'
           end.

Declare Scope py_scope.
Delimit Scope py_scope with py.
Notation "x <- c ;; k" := (bind c (fun x => k))
  (at level 100, c at next level, right associativity) : py_scope.
Notation "c ;; k" := (bind c (fun _ => k))
  (at level 100, right associativity) : py_scope.
Local Open Scope py_scope.

(** Reading and assigning a module-level name. *)
Definition var (x : string) : M Value :=
  g <- gets globals ;;
  match g !! x with
  | Some v => ret v
  | None => raise (NameError x)
  end.

Definition assign (x : string) (e : M Value) : M unit :=
  v <- e ;; modify (set_global x v).

Notation "x ::= e" := (assign x e) (at level 90, no associativity) : py_scope.

Definition color_of (name : string) : M Color :=
  match getrgb name with
  | Some c => ret c
  | None => raise ValueError
  end.

Definition deref (h : nat) : M Canvas :=
  hp <- gets heap ;;
  match hp !! h with
  | Some im => ret im
  | None => raise ValueError
  end.

Definition store (h : nat) (im : Canvas) : M unit :=
  modify (fun w => set_heap (<[h := im]> (heap w)) w).

(** ** The library calls of the script *)

Module Image.

(** [Image.new(mode, size, color=...)] allocates a fresh image. *)
Definition new (mode : string) (size : Z * Z) (color : string) : M Value :=
  modify (emit (EvNew mode size color)) ;;
  c <- color_of color ;;
  hp <- gets heap ;;
  modify (set_heap (hp ++ [blank mode (fst size) (snd size) c])) ;;
  ret (VImage (length hp)).

(** [img.save(path, format, quality=...)]: open the path for writing,
    then write the encoding of the image as it is at that moment.  The
    failure modelled is the one of opening the path (missing directory,
    permission denied), which leaves the file system as it was; a failure
    of the encoder once the path is open is not modelled. *)
Definition save (E : Env) (img : Value) (path fmt : string) (quality : Z)
  : M unit :=
  modify (emit (EvSave path fmt quality)) ;;
  match img with
  | VImage h =>
      im <- deref h ;;
      match open_for_write E path with
      | Some e => raise e
      | None =>
          modify (set_file path
                    (mkFile fmt (im_width im) (im_height im) quality
                            (jpeg_scan E im quality)))
      end
  | _ => raise TypeError
  end.

End Image.

Module ImageFont.

Definition load_default (E : Env) : M Value :=
  modify (emit EvLoadDefault) ;;
  n <- gets font_calls ;;
  modify count_font_call ;;
  match font_load E n with
  | Ok f => ret (VFont f)
  | Raise e => raise e
  end.

End ImageFont.

Module ImageDraw.

(** [ImageDraw.Draw(img)]: the drawing context refers to the image
    itself, so that drawing through it changes [img]. *)
Definition Draw (img : Value) : M Value :=
  match img with
  | VImage h => modify (emit (EvDraw h)) ;; _ <- deref h ;; ret (VDraw h)
  | _ => raise TypeError
  end.

(** [draw.text(xy, text, fill=..., font=..., anchor=...)] in a context
    whose default font is at hand: the renderer is given the font argument
    and the anchor as the caller passed them; with no font argument that
    is [None], and the renderer draws with its default font.  The loading
    of that font by the context is left to [DrawContext.text] below. *)
Definition text (E : Env) (draw : Value) (xy : Z * Z) (s : string)
           (fill : string) (font : option Font) (anchor : string) : M unit :=
  modify (emit (EvText xy s fill font anchor)) ;;
  match draw with
  | VDraw h =>
      ink <- color_of fill ;;
      im <- deref h ;;
      store h (paste_mask im (text_mask E font s anchor xy) ink)
  | _ => raise TypeError
  end.

(** [draw.rectangle([x0, y0, x1, y1], fill=...)] *)
Definition rectangle (draw : Value) (box : list Z) (fill : string)
  : M unit :=
  modify (emit (EvRectangle box fill)) ;;
  match draw, box with
  | VDraw h, [x0; y0; x1; y1] =>
      ink <- color_of fill ;;
      im <- deref h ;;
      store h (fill_rect im x0 y0 x1 y1 ink)
  | VDraw _, _ => raise ValueError
  | _, _ => raise TypeError
  end.

End ImageDraw.

Definition newline : string := String "010"%char EmptyString.

Definition print (s : string) : M unit :=
  modify (emit (EvPrint s)) ;;
  modify (write_stdout (s +:+ newline)).

(** ** The script *)

Definition main (E : Env) : M unit :=
  "img" ::= Image.new "RGB" (1000, 1000) "white" ;;
  "draw" ::= (img <- var "img" ;; ImageDraw.Draw img) ;;
  try_except
    ("font_large" ::= ImageFont.load_default E ;;
     "font_medium" ::= ImageFont.load_default E)
    ("font_large" ::= ret VNone ;;
     "font_medium" ::= ret VNone) ;;
  (draw <- var "draw" ;;
   ImageDraw.text E draw (500, 400) "TEST LISTING" "red" None "mm") ;;
  (draw <- var "draw" ;;
   ImageDraw.text E draw (500, 500) "Wire Harness" "black" None "mm") ;;
  (draw <- var "draw" ;;
   ImageDraw.text E draw (500, 600) "DELETE ME" "red" None "mm") ;;
  (draw <- var "draw" ;;
   ImageDraw.rectangle draw [200; 700; 800; 750] "black") ;;
  (draw <- var "draw" ;;
   ImageDraw.rectangle draw [150; 680; 250; 770] "gray") ;;
  (draw <- var "draw" ;;
   ImageDraw.rectangle draw [750; 680; 850; 770] "gray") ;;
  (img <- var "img" ;;
   Image.save E img "test-images/test-wire-harness.jpg" "JPEG" 95) ;;
  print "Test image created: test-images/test-wire-harness.jpg".

(** ** The script over Pillow's own font handling

    [ImageDraw.text] above draws with a renderer whose default font is
    simply there.  In Pillow the drawing context loads that font itself,
    by [ImageFont.load_default], the first time a text is drawn without a
    font argument, keeps it for the later calls and renders with it; when
    that load raises, so does [draw.text].  [DrawContext] models this.
    The script makes one context, whose font is [draw_font]. *)

Module DrawContext.

(** [ImageDraw.getfont()]: the context's font, loaded at first use. *)
Definition getfont (E : Env) : M Font :=
  cached <- gets draw_font ;;
  match cached with
  | Some f => ret f
  | None =>
      v <- ImageFont.load_default E ;;
      match v with
      | VFont f => modify (set_draw_font f) ;; ret f
      | _ => raise TypeError
      end
  end.

(** [draw.text(xy, text, fill=..., font=..., anchor=...)]: the font is
    settled first, then the ink, then the mask is pasted. *)
Definition text (E : Env) (draw : Value) (xy : Z * Z) (s : string)
           (fill : string) (font : option Font) (anchor : string) : M unit :=
  modify (emit (EvText xy s fill font anchor)) ;;
  match draw with
  | VDraw h =>
      f <- match font with
           | Some f => ret f
           | None => getfont E
           end ;;
      ink <- color_of fill ;;
      im <- deref h ;;
      store h (paste_mask im (text_mask E (Some f) s anchor xy) ink)
  | _ => raise TypeError
  end.

End DrawContext.

(** Lines 9 to 15 of the script: the [try] around the font loading. *)
Definition load_fonts (E : Env) : M unit :=
  try_except
    ("font_large" ::= ImageFont.load_default E ;;
     "font_medium" ::= ImageFont.load_default E)
    ("font_large" ::= ret VNone ;;
     "font_medium" ::= ret VNone).

Definition main_ctx (E : Env) : M unit :=
  "img" ::= Image.new "RGB" (1000, 1000) "white" ;;
  "draw" ::= (img <- var "img" ;; ImageDraw.Draw img) ;;
  load_fonts E ;;
  (draw <- var "draw" ;;
   DrawContext.text E draw (500, 400) "TEST LISTING" "red" None "mm") ;;
  (draw <- var "draw" ;;
   DrawContext.text E draw (500, 500) "Wire Harness" "black" None "mm") ;;
  (draw <- var "draw" ;;
   DrawContext.text E draw (500, 600) "DELETE ME" "red" None "mm") ;;
  (draw <- var "draw" ;;
   ImageDraw.rectangle draw [200; 700; 800; 750] "black") ;;
  (draw <- var "draw" ;;
   ImageDraw.rectangle draw [150; 680; 250; 770] "gray") ;;
  (draw <- var "draw" ;;
   ImageDraw.rectangle draw [750; 680; 850; 770] "gray") ;;
  (img <- var "img" ;;
   Image.save E img "test-images/test-wire-harness.jpg" "JPEG" 95) ;;
  print "Test image created: test-images/test-wire-harness.jpg".

(** ** Names for what a run is expected to leave behind *)

Definition out_path : string := "test-images/test-wire-harness.jpg".

Definition confirmation : string :=
  "Test image created: test-images/test-wire-harness.jpg".

Definition white : Color := RGB 255 255 255.
Definition red : Color := RGB 255 0 0.
Definition black : Color := RGB 0 0 0.
Definition gray : Color := RGB 128 128 128.

(** The canvas after the three [draw.text] statements ... *)
Definition lettered (E : Env) : Canvas :=
  paste_mask
    (paste_mask
       (paste_mask (blank "RGB" 1000 1000 white)
          (text_mask E None "TEST LISTING" "mm" (500, 400)) red)
       (text_mask E None "Wire Harness" "mm" (500, 500)) black)
    (text_mask E None "DELETE ME" "mm" (500, 600)) red.

(** ... and after the three [draw.rectangle] statements. *)
Definition drawn (E : Env) : Canvas :=
  fill_rect
    (fill_rect
       (fill_rect (lettered E) 200 700 800 750 black)
       150 680 250 770 gray)
    750 680 850 770 gray.

(** The values bound to [font_large] and [font_medium] after the [try]. *)
Definition fonts (E : Env) : Value * Value :=
  match font_load E 0%nat with
  | Ok fl => match font_load E 1%nat with
             | Ok fm => (VFont fl, VFont fm)
             | Raise _ => (VNone, VNone)
             end
  | Raise _ => (VNone, VNone)
  end.

Definition load_calls (E : Env) : nat :=
  match font_load E 0%nat with Ok _ => 2 | Raise _ => 1 end.

Definition draw_calls : list Event :=
  [ EvText (500, 400) "TEST LISTING" "red" None "mm";
    EvText (500, 500) "Wire Harness" "black" None "mm";
    EvText (500, 600) "DELETE ME" "red" None "mm";
    EvRectangle [200; 700; 800; 750] "black";
    EvRectangle [150; 680; 250; 770] "gray";
    EvRectangle [750; 680; 850; 770] "gray" ].

Definition encoded (E : Env) : File :=
  mkFile "JPEG" 1000 1000 95 (jpeg_scan E (drawn E) 95).

Definition outcome (E : Env) : Result unit :=
  match open_for_write E out_path with
  | None => Ok tt
  | Some e => Raise e
  end.

Definition final (E : Env) (fs : gmap string File) : World :=
  mkWorld [drawn E]
    (<["font_medium" := snd (fonts E)]>
       (<["font_large" := fst (fonts E)]>
          (<["draw" := VDraw 0]> (<["img" := VImage 0]> ∅))))
    (match open_for_write E out_path with
     | None => <[out_path := encoded E]> fs
     | Some _ => fs
     end)
    (match open_for_write E out_path with
     | None => confirmation +:+ newline
     | Some _ => EmptyString
     end)
    (load_calls E)
    ([EvNew "RGB" (1000, 1000) "white"; EvDraw 0]
       ++ replicate (load_calls E) EvLoadDefault
       ++ draw_calls
       ++ EvSave out_path "JPEG" 95
       :: match open_for_write E out_path with
          | None => [EvPrint confirmation]
          | Some _ => []
          end)
    None.

(** ** Reading a world and its trace *)

(** A run of the script in a fresh interpreter: empty namespace, empty
    image heap, nothing printed yet, and whatever files exist. *)
Definition run (E : Env) (fs : gmap string File) : Result unit * World :=
  main E (init fs).

Definition result (E : Env) (fs : gmap string File) : Result unit :=
  fst (run E fs).

Definition after (E : Env) (fs : gmap string File) : World :=
  snd (run E fs).

(** The image that the name [img] refers to. *)
Definition img_of (w : World) : option Canvas :=
  match globals w !! "img" with
  | Some (VImage h) => heap w !! h
  | _ => None
  end.

Definition pixel (w : World) (xy : Z * Z) : option Color :=
  match img_of w with
  | Some im => getpixel im xy
  | None => None
  end.

Definition is_new (ev : Event) : bool :=
  match ev with EvNew _ _ _ => true | _ => false end.

Definition is_load (ev : Event) : bool :=
  match ev with EvLoadDefault => true | _ => false end.

Definition is_text (ev : Event) : bool :=
  match ev with EvText _ _ _ _ _ => true | _ => false end.

Definition is_rectangle (ev : Event) : bool :=
  match ev with EvRectangle _ _ => true | _ => false end.

Definition is_draw_call (ev : Event) : bool := is_text ev || is_rectangle ev.

Definition is_save (ev : Event) : bool :=
  match ev with EvSave _ _ _ => true | _ => false end.

Definition is_print (ev : Event) : bool :=
  match ev with EvPrint _ => true | _ => false end.

Definition font_of (ev : Event) : option Font :=
  match ev with EvText _ _ _ font _ => font | _ => None end.

(** The pixels a drawing call reaches: the box of a rectangle, and for a
    text the pixels its mask covers at all (its rendered extent). *)
Definition touches (E : Env) (ev : Event) (x y : Z) : bool :=
  match ev with
  | EvText xy s _ font anchor =>
      negb (coverage (text_mask E font s anchor xy x y) =? 0)
  | EvRectangle [x0; y0; x1; y1] _ => in_box x0 y0 x1 y1 x y
  | _ => false
  end.

(** Channels are 8-bit. *)
Definition valid_color (c : Color) : Prop :=
  0 <= c_r c <= 255 /\ 0 <= c_g c <= 255 /\ 0 <= c_b c <= 255.

(** Every pixel value of an image has 8-bit channels. *)
Definition valid_canvas (im : Canvas) : Prop :=
  forall x y, valid_color (im_px im x y).


(** The same environment with other outcomes of the font loading. *)
Definition with_font_load (fl : nat -> Result Font) (E : Env) : Env :=
  mkEnv fl (text_mask E) (open_for_write E) (jpeg_scan E).

(** ** Sample environments *)

(** A renderer that draws every character as a solid cell of 6 by 11
    pixels and honours the anchor ['mm']. *)
Definition block_mask (font : option Font) (s anchor : string) (xy : Z * Z)
  (x y : Z) : Byte.byte :=
  let w := 6 * Z.of_nat (String.length s) in
  let h := 11 in
  let '(x0, y0) := if String.eqb anchor "mm"
                   then (fst xy - w / 2, snd xy - h / 2) else xy in
  if in_box x0 y0 (x0 + w - 1) (y0 + h - 1) x y then Byte.xff else Byte.x00.

Definition env_ok : Env :=
  mkEnv (fun n => Ok (FontObj n)) block_mask (fun _ => None) (fun _ _ => []).

(** No font can be loaded. *)
Definition env_nofont : Env :=
  with_font_load (fun _ => Raise (OSError 2)) env_ok.

(** The directory [test-images/] is missing: ENOENT on opening. *)
Definition env_nodir : Env :=
  mkEnv (fun n => Ok (FontObj n)) block_mask (fun _ => Some (OSError 2))
        (fun _ _ => []).

(** The first font loads, the second call is interrupted. *)
Definition env_halffont : Env :=
  with_font_load
    (fun n => match n with
              | O => Ok (FontObj 0)
              | S _ => Raise KeyboardInterrupt
              end)
    env_ok.

(** A file system in which the output file exists already. *)
Definition fs_stale : gmap string File :=
  {[ out_path := mkFile "JPEG" 1 1 10 [] ]}.

(** ** What a run over the drawing context leaves behind *)

Definition run_ctx (E : Env) (fs : gmap string File) : Result unit * World :=
  main_ctx E (init fs).

Definition result_ctx (E : Env) (fs : gmap string File) : Result unit :=
  fst (run_ctx E fs).

Definition after_ctx (E : Env) (fs : gmap string File) : World :=
  snd (run_ctx E fs).

(** The text and the rectangles as drawn with a given font argument to
    the renderer. *)
Definition lettered_by (E : Env) (font : option Font) : Canvas :=
  paste_mask
    (paste_mask
       (paste_mask (blank "RGB" 1000 1000 white)
          (text_mask E font "TEST LISTING" "mm" (500, 400)) red)
       (text_mask E font "Wire Harness" "mm" (500, 500)) black)
    (text_mask E font "DELETE ME" "mm" (500, 600)) red.

Definition drawn_by (E : Env) (font : option Font) : Canvas :=
  fill_rect
    (fill_rect
       (fill_rect (lettered_by E font) 200 700 800 750 black)
       150 680 250 770 gray)
    750 680 850 770 gray.

(** The outcome of the load that the context makes for itself: it is the
    call that follows the one or two calls of the [try]. *)
Definition context_load (E : Env) : Result Font := font_load E (load_calls E).

Definition bindings (E : Env) : gmap string Value :=
  <["font_medium" := snd (fonts E)]>
    (<["font_large" := fst (fonts E)]>
       (<["draw" := VDraw 0]> (<["img" := VImage 0]> ∅))).

(** The calls up to and including the first [draw.text] and the load it
    makes. *)
Definition calls_to_first_text (E : Env) : list Event :=
  [EvNew "RGB" (1000, 1000) "white"; EvDraw 0]
    ++ replicate (load_calls E) EvLoadDefault
    ++ [EvText (500, 400) "TEST LISTING" "red" None "mm"; EvLoadDefault].

Definition calls_after_first_text : list Event :=
  [ EvText (500, 500) "Wire Harness" "black" None "mm";
    EvText (500, 600) "DELETE ME" "red" None "mm";
    EvRectangle [200; 700; 800; 750] "black";
    EvRectangle [150; 680; 250; 770] "gray";
    EvRectangle [750; 680; 850; 770] "gray";
    EvSave out_path "JPEG" 95 ].

Definition outcome_ctx (E : Env) : Result unit :=
  match context_load E with
  | Raise e => Raise e
  | Ok _ => outcome E
  end.

Definition final_ctx (E : Env) (fs : gmap string File) : World :=
  match context_load E with
  | Raise _ =>
      mkWorld [blank "RGB" 1000 1000 white] (bindings E) fs EmptyString
              (S (load_calls E)) (calls_to_first_text E) None
  | Ok f =>
      mkWorld [drawn_by E (Some f)] (bindings E)
        (match open_for_write E out_path with
         | None =>
             <[out_path :=
                 mkFile "JPEG" 1000 1000 95
                        (jpeg_scan E (drawn_by E (Some f)) 95)]> fs
         | Some _ => fs
         end)
        (match open_for_write E out_path with
         | None => confirmation +:+ newline
         | Some _ => EmptyString
         end)
        (S (load_calls E))
        (calls_to_first_text E
           ++ calls_after_first_text
           ++ match open_for_write E out_path with
              | None => [EvPrint confirmation]
              | Some _ => []
              end)
        (Some f)
  end.


(** ** Masks and anchors *)

Definition covered (mask : Z -> Z -> Byte.byte) (x y : Z) : bool :=
  negb (coverage (mask x y) =? 0).

(** The smallest box around the pixels a mask covers. *)
Definition bounding_box (mask : Z -> Z -> Byte.byte) (x0 y0 x1 y1 : Z)
  : Prop :=
  (forall x y, covered mask x y = true -> x0 <= x <= x1 /\ y0 <= y <= y1)
  /\ (exists y, covered mask x0 y = true)
  /\ (exists y, covered mask x1 y = true)
  /\ (exists x, covered mask x y0 = true)
  /\ (exists x, covered mask x y1 = true).

(** The point [xy] is the centre of what the mask covers, to the pixel:
    the middle of the box is within half a pixel of it both ways. *)
Definition centred_at (mask : Z -> Z -> Byte.byte) (xy : Z * Z) : Prop :=
  exists x0 y0 x1 y1,
    bounding_box mask x0 y0 x1 y1
    /\ -1 <= x0 + x1 - 2 * fst xy <= 1
    /\ -1 <= y0 + y1 - 2 * snd xy <= 1.

(** A text call whose rendered string has its point as centre. *)
Definition centred_call (E : Env) (ev : Event) : Prop :=
  match ev with
  | EvText xy s _ font anchor => centred_at (text_mask E font s anchor xy) xy
  | _ => True
  end.

(** A renderer that honours the anchor ['mm']. *)
Definition honours_mm (E : Env) : Prop :=
  forall font s xy,
    s <> EmptyString -> centred_at (text_mask E font s "mm" xy) xy.

(** The colour that the three texts, pasted in order over white, leave at
    a pixel. *)
Definition text_over (E : Env) (x y : Z) : Color :=
  blend_color
    (coverage (text_mask E None "DELETE ME" "mm" (500, 600) x y))
    (blend_color
       (coverage (text_mask E None "Wire Harness" "mm" (500, 500) x y))
       (blend_color
          (coverage (text_mask E None "TEST LISTING" "mm" (500, 400) x y))
          white red)
       black)
    red.

(** ** More sample environments *)

(** A renderer that ignores the anchor and draws from the given point as
    top-left corner, as Pillow's built-in bitmap font does. *)
Definition env_bitmap : Env :=
  mkEnv (fun n => Ok (FontObj n))
        (fun font s _ xy => block_mask font s "la" xy)
        (fun _ => None) (fun _ _ => []).

(** The fonts of the [try] cannot be loaded, the context's own load then
    works. *)
Definition env_late_font : Env :=
  with_font_load
    (fun n => match n with
              | O => Raise (OSError 2)
              | S _ => Ok (FontObj n)
              end)
    env_ok.

(** ** What each call does to the world *)

Ltac unfold_m :=
  unfold assign, var, color_of, deref, store, bind, ret, raise, modify, gets.

Section CallSpecs.

Variable E : Env.

Lemma bind_ok {A B} (m : M A) (k : A -> M B) w a w' :
  m w = (Ok a, w') -> bind m k w = k a w'.
Proof. intros H. unfold bind. now rewrite H. Qed.

Lemma bind_then {A B} (m : M A) (k : A -> M B) w a w' r :
  m w = (Ok a, w') -> k a w' = r -> bind m k w = r.
Proof. intros H <-. now apply bind_ok. Qed.

Lemma bind_raise {A B} (m : M A) (k : A -> M B) w e w' :
  m w = (Raise e, w') -> bind m k w = (Raise e, w').
Proof. intros H. unfold bind. now rewrite H. Qed.

Lemma bind_raise_then {A B} (m : M A) (k : A -> M B) w e w' r :
  m w = (Raise e, w') -> (Raise e, w') = r -> bind m k w = r.
Proof. intros H <-. now apply bind_raise. Qed.

Lemma try_ok {A} (body handler : M A) w a w' :
  body w = (Ok a, w') -> try_except body handler w = (Ok a, w').
Proof. intros H. unfold try_except. now rewrite H. Qed.

Lemma try_caught {A} (body handler : M A) w e w' r :
  body w = (Raise e, w') -> handler w' = r ->
  try_except body handler w = r.
Proof. intros H <-. unfold try_except. now rewrite H. Qed.

Lemma var_spec x v w : globals w !! x = Some v -> var x w = (Ok v, w).
Proof. intros H. unfold_m. now rewrite H. Qed.

Lemma assign_spec x e v w w' :
  e w = (Ok v, w') -> assign x e w = (Ok tt, set_global x v w').
Proof. intros H. unfold_m. now rewrite H. Qed.

Lemma assign_raise x e err w w' :
  e w = (Raise err, w') -> assign x e w = (Raise err, w').
Proof. intros H. unfold_m. now rewrite H. Qed.

Lemma new_spec mode size color c w :
  getrgb color = Some c ->
  Image.new mode size color w
  = (Ok (VImage (length (heap w))),
     set_heap (heap w ++ [blank mode (fst size) (snd size) c])
              (emit (EvNew mode size color) w)).
Proof.
  intros H. unfold Image.new. unfold_m.
  now rewrite H.
Qed.

Lemma Draw_spec h im w :
  heap w !! h = Some im ->
  ImageDraw.Draw (VImage h) w = (Ok (VDraw h), emit (EvDraw h) w).
Proof.
  intros H. unfold ImageDraw.Draw. unfold_m.
  cbn [heap emit]. now rewrite H.
Qed.

Lemma load_default_ok f w :
  font_load E (font_calls w) = Ok f ->
  ImageFont.load_default E w
  = (Ok (VFont f), count_font_call (emit EvLoadDefault w)).
Proof.
  intros H. unfold ImageFont.load_default. unfold_m.
  cbn [font_calls emit]. now rewrite H.
Qed.

Lemma load_default_raise e w :
  font_load E (font_calls w) = Raise e ->
  ImageFont.load_default E w
  = (Raise e, count_font_call (emit EvLoadDefault w)).
Proof.
  intros H. unfold ImageFont.load_default. unfold_m.
  cbn [font_calls emit]. now rewrite H.
Qed.

Lemma text_spec h im ink xy s fill font anchor w :
  heap w !! h = Some im -> getrgb fill = Some ink ->
  ImageDraw.text E (VDraw h) xy s fill font anchor w
  = (Ok tt,
     set_heap (<[h := paste_mask im (text_mask E font s anchor xy) ink]>
                 (heap w))
              (emit (EvText xy s fill font anchor) w)).
Proof.
  intros Hh Hc.
  unfold ImageDraw.text. unfold_m.
  rewrite Hc. cbn [heap emit]. now rewrite Hh.
Qed.

Lemma rectangle_spec h im ink x0 y0 x1 y1 fill w :
  heap w !! h = Some im -> getrgb fill = Some ink ->
  ImageDraw.rectangle (VDraw h) [x0; y0; x1; y1] fill w
  = (Ok tt,
     set_heap (<[h := fill_rect im x0 y0 x1 y1 ink]> (heap w))
              (emit (EvRectangle [x0; y0; x1; y1] fill) w)).
Proof.
  intros Hh Hc.
  unfold ImageDraw.rectangle. unfold_m.
  rewrite Hc. cbn [heap emit]. now rewrite Hh.
Qed.

Lemma save_ok h im path fmt quality w :
  heap w !! h = Some im -> open_for_write E path = None ->
  Image.save E (VImage h) path fmt quality w
  = (Ok tt,
     set_file path
       (mkFile fmt (im_width im) (im_height im) quality
               (jpeg_scan E im quality))
       (emit (EvSave path fmt quality) w)).
Proof.
  intros Hh Ho. unfold Image.save. unfold_m.
  cbn [heap emit]. rewrite Hh, Ho. reflexivity.
Qed.

Lemma save_raise h im path fmt quality e w :
  heap w !! h = Some im -> open_for_write E path = Some e ->
  Image.save E (VImage h) path fmt quality w
  = (Raise e, emit (EvSave path fmt quality) w).
Proof.
  intros Hh Ho. unfold Image.save. unfold_m.
  cbn [heap emit]. rewrite Hh, Ho. reflexivity.
Qed.

Lemma print_spec s w :
  print s w = (Ok tt, write_stdout (s +:+ newline) (emit (EvPrint s) w)).
Proof. reflexivity. Qed.

End CallSpecs.

(** ** Running the script from the empty namespace *)

Ltac tidy :=
  cbv beta iota delta
      [emit set_heap set_global set_file write_stdout count_font_call
       set_draw_font init heap globals files stdout font_calls log draw_font
       app length fst snd].

Ltac global_lookup :=
  tidy;
  repeat (rewrite lookup_insert_ne by discriminate);
  apply lookup_insert_eq.

Ltac step tac := eapply bind_then; [ tac | tidy ].

Ltac with_var tac :=
  eapply bind_then; [ apply var_spec; global_lookup | tac ].

Ltac draw_text := step ltac:(with_var ltac:(eapply text_spec; reflexivity)).

Ltac draw_rectangle :=
  step ltac:(with_var ltac:(eapply rectangle_spec; reflexivity)).

Ltac save_and_print Hopen :=
  match type of Hopen with
  | _ = None =>
      step ltac:(with_var ltac:(eapply save_ok; [ reflexivity | exact Hopen ]));
      rewrite print_spec; tidy
  | _ = Some _ =>
      eapply bind_raise_then;
      [ with_var ltac:(eapply save_raise; [ reflexivity | exact Hopen ])
      | tidy ]
  end.

Lemma main_run E fs : main E (init fs) = (outcome E, final E fs).
Proof.
  unfold main, final, outcome, fonts, load_calls, encoded.
  step ltac:(eapply assign_spec, new_spec; reflexivity).
  step ltac:(eapply assign_spec;
             with_var ltac:(eapply Draw_spec; reflexivity)).
  destruct (font_load E 0%nat) as [f0|e0] eqn:H0;
    [ destruct (font_load E 1%nat) as [f1|e1] eqn:H1 | ].
  - (* both fonts load *)
    step ltac:(eapply try_ok;
               step ltac:(eapply assign_spec, load_default_ok; exact H0);
               eapply assign_spec, load_default_ok; exact H1).
    do 3 draw_text. do 3 draw_rectangle.
    destruct (open_for_write E out_path) as [e|] eqn:Hs;
      save_and_print Hs; reflexivity.
  - (* the second load raises after [font_large] was bound *)
    step ltac:(eapply try_caught;
               [ step ltac:(eapply assign_spec, load_default_ok; exact H0);
                 eapply assign_raise, load_default_raise; exact H1
               | tidy;
                 step ltac:(eapply assign_spec; reflexivity);
                 eapply assign_spec; reflexivity ]).
    rewrite insert_insert_eq.
    do 3 draw_text. do 3 draw_rectangle.
    destruct (open_for_write E out_path) as [e|] eqn:Hs;
      save_and_print Hs; reflexivity.
  - (* the first load raises *)
    step ltac:(eapply try_caught;
               [ eapply bind_raise_then;
                 [ eapply assign_raise, load_default_raise; exact H0
                 | reflexivity ]
               | tidy;
                 step ltac:(eapply assign_spec; reflexivity);
                 eapply assign_spec; reflexivity ]).
    do 3 draw_text. do 3 draw_rectangle.
    destruct (open_for_write E out_path) as [e|] eqn:Hs;
      save_and_print Hs; reflexivity.
Qed.


(** ** Running the script over the drawing context *)

Section ContextSpecs.

Variable E : Env.

Lemma getfont_cached f w :
  draw_font w = Some f -> DrawContext.getfont E w = (Ok f, w).
Proof. intros H. unfold DrawContext.getfont. unfold_m. now rewrite H. Qed.

Lemma getfont_load f w :
  draw_font w = None -> font_load E (font_calls w) = Ok f ->
  DrawContext.getfont E w
  = (Ok f, set_draw_font f (count_font_call (emit EvLoadDefault w))).
Proof.
  intros Hc Hl. unfold DrawContext.getfont. unfold_m. rewrite Hc.
  now rewrite (load_default_ok E f w Hl).
Qed.

Lemma getfont_raise e w :
  draw_font w = None -> font_load E (font_calls w) = Raise e ->
  DrawContext.getfont E w
  = (Raise e, count_font_call (emit EvLoadDefault w)).
Proof.
  intros Hc Hl. unfold DrawContext.getfont. unfold_m. rewrite Hc.
  now rewrite (load_default_raise E e w Hl).
Qed.

Lemma context_text_spec h im ink f xy s fill anchor w w1 :
  DrawContext.getfont E (emit (EvText xy s fill None anchor) w) = (Ok f, w1) ->
  heap w1 !! h = Some im -> getrgb fill = Some ink ->
  DrawContext.text E (VDraw h) xy s fill None anchor w
  = (Ok tt,
     set_heap (<[h := paste_mask im (text_mask E (Some f) s anchor xy) ink]>
                 (heap w1))
              w1).
Proof.
  intros Hf Hh Hc. unfold DrawContext.text.
  unfold assign, var, color_of, deref, store, bind, modify, gets.
  rewrite Hf, Hc. unfold ret. now rewrite Hh.
Qed.

Lemma context_text_raise h e xy s fill anchor w w1 :
  DrawContext.getfont E (emit (EvText xy s fill None anchor) w)
  = (Raise e, w1) ->
  DrawContext.text E (VDraw h) xy s fill None anchor w = (Raise e, w1).
Proof.
  intros Hf. unfold DrawContext.text. unfold bind, modify.
  now rewrite Hf.
Qed.

End ContextSpecs.

Ltac first_text_loads Hload :=
  step ltac:(with_var ltac:(eapply context_text_spec;
                            [ eapply getfont_load; [ reflexivity | exact Hload ]
                            | reflexivity | reflexivity ])).

Ltac first_text_raises Hload :=
  eapply bind_raise_then;
  [ with_var ltac:(eapply context_text_raise, getfont_raise;
                   [ reflexivity | exact Hload ])
  | tidy ].

Ltac next_text :=
  step ltac:(with_var ltac:(eapply context_text_spec;
                            [ eapply getfont_cached; reflexivity
                            | reflexivity | reflexivity ])).

Ltac finish_run :=
  do 2 next_text; do 3 draw_rectangle;
  destruct (open_for_write _ out_path) as [e|] eqn:Hs;
  save_and_print Hs; reflexivity.

Lemma load_fonts_both E f0 f1 w :
  font_load E (font_calls w) = Ok f0 ->
  font_load E (S (font_calls w)) = Ok f1 ->
  load_fonts E w
  = (Ok tt,
     set_global "font_medium" (VFont f1)
       (count_font_call
          (emit EvLoadDefault
             (set_global "font_large" (VFont f0)
                (count_font_call (emit EvLoadDefault w)))))).
Proof.
  intros H0 H1. unfold load_fonts.
  eapply try_ok.
  eapply bind_then; [ eapply assign_spec, load_default_ok; exact H0 | ].
  cbv beta. eapply assign_spec, load_default_ok. exact H1.
Qed.

Lemma load_fonts_second E f0 e w :
  font_load E (font_calls w) = Ok f0 ->
  font_load E (S (font_calls w)) = Raise e ->
  load_fonts E w
  = (Ok tt,
     set_global "font_medium" VNone
       (set_global "font_large" VNone
          (count_font_call
             (emit EvLoadDefault
                (set_global "font_large" (VFont f0)
                   (count_font_call (emit EvLoadDefault w))))))).
Proof.
  intros H0 H1. unfold load_fonts.
  eapply try_caught.
  - eapply bind_then; [ eapply assign_spec, load_default_ok; exact H0 | ].
    cbv beta. eapply assign_raise, load_default_raise. exact H1.
  - reflexivity.
Qed.

Lemma load_fonts_first E e w :
  font_load E (font_calls w) = Raise e ->
  load_fonts E w
  = (Ok tt,
     set_global "font_medium" VNone
       (set_global "font_large" VNone
          (count_font_call (emit EvLoadDefault w)))).
Proof.
  intros H0. unfold load_fonts.
  eapply try_caught.
  - eapply bind_raise_then;
      [ eapply assign_raise, load_default_raise; exact H0 | reflexivity ].
  - reflexivity.
Qed.

Lemma main_ctx_run E fs :
  main_ctx E (init fs) = (outcome_ctx E, final_ctx E fs).
Proof.
  unfold main_ctx, final_ctx, outcome_ctx, outcome, context_load, bindings,
    calls_to_first_text, calls_after_first_text, fonts, load_calls.
  step ltac:(eapply assign_spec, new_spec; reflexivity).
  step ltac:(eapply assign_spec;
             with_var ltac:(eapply Draw_spec; reflexivity)).
  destruct (font_load E 0%nat) as [f0|e0] eqn:H0;
    [ destruct (font_load E 1%nat) as [f1|e1] eqn:H1 | ].
  - step ltac:(eapply load_fonts_both; [ exact H0 | exact H1 ]).
    destruct (font_load E 2%nat) as [f|e] eqn:H2.
    + first_text_loads H2. finish_run.
    + first_text_raises H2. reflexivity.
  - step ltac:(eapply load_fonts_second; [ exact H0 | exact H1 ]).
    rewrite insert_insert_eq.
    destruct (font_load E 2%nat) as [f|e] eqn:H2.
    + first_text_loads H2. finish_run.
    + first_text_raises H2. reflexivity.
  - step ltac:(eapply load_fonts_first; exact H0).
    destruct (font_load E 1%nat) as [f|e] eqn:H1.
    + first_text_loads H1. finish_run.
    + first_text_raises H1. reflexivity.
Qed.

Lemma result_ctx_run E fs : result_ctx E fs = outcome_ctx E.
Proof. unfold result_ctx, run_ctx. now rewrite main_ctx_run. Qed.

Lemma after_ctx_run E fs : after_ctx E fs = final_ctx E fs.
Proof. unfold after_ctx, run_ctx. now rewrite main_ctx_run. Qed.

(** The script on the sample environments. *)

Example run_ok : result env_ok fs_stale = Ok tt.
Proof. vm_compute. reflexivity. Qed.

Example run_ok_trace :
  log (after env_ok fs_stale)
  = [ EvNew "RGB" (1000, 1000) "white"; EvDraw 0;
      EvLoadDefault; EvLoadDefault;
      EvText (500, 400) "TEST LISTING" "red" None "mm";
      EvText (500, 500) "Wire Harness" "black" None "mm";
      EvText (500, 600) "DELETE ME" "red" None "mm";
      EvRectangle [200; 700; 800; 750] "black";
      EvRectangle [150; 680; 250; 770] "gray";
      EvRectangle [750; 680; 850; 770] "gray";
      EvSave "test-images/test-wire-harness.jpg" "JPEG" 95;
      EvPrint "Test image created: test-images/test-wire-harness.jpg" ].
Proof. vm_compute. reflexivity. Qed.

Example run_ok_pixels :
  pixel (after env_ok fs_stale) (500, 400) = Some red
  /\ pixel (after env_ok fs_stale) (500, 500) = Some black
  /\ pixel (after env_ok fs_stale) (500, 406) = Some white
  /\ pixel (after env_ok fs_stale) (149, 725) = Some white
  /\ pixel (after env_ok fs_stale) (150, 725) = Some gray
  /\ pixel (after env_ok fs_stale) (251, 725) = Some black
  /\ pixel (after env_ok fs_stale) (1000, 725) = None.
Proof. vm_compute. repeat split. Qed.

Example run_nodir :
  result env_nodir fs_stale = Raise (OSError 2)
  /\ files (after env_nodir fs_stale) !! out_path
     = Some (mkFile "JPEG" 1 1 10 [])
  /\ stdout (after env_nodir fs_stale) = EmptyString.
Proof. vm_compute. repeat split. Qed.


(** The script over the drawing context, on the sample environments. *)

Example run_ctx_ok :
  result_ctx env_ok fs_stale = Ok tt
  /\ font_calls (after_ctx env_ok fs_stale) = 3%nat
  /\ draw_font (after_ctx env_ok fs_stale) = Some (FontObj 2)
  /\ pixel (after_ctx env_ok fs_stale) (500, 400) = Some red
  /\ pixel (after_ctx env_ok fs_stale) (500, 725) = Some black.
Proof. vm_compute. repeat split. Qed.

Example run_ctx_nofont :
  result_ctx env_nofont fs_stale = Raise (OSError 2)
  /\ font_calls (after_ctx env_nofont fs_stale) = 2%nat
  /\ globals (after_ctx env_nofont fs_stale) !! "font_large" = Some VNone
  /\ pixel (after_ctx env_nofont fs_stale) (500, 400) = Some white
  /\ pixel (after_ctx env_nofont fs_stale) (500, 725) = Some white
  /\ stdout (after_ctx env_nofont fs_stale) = EmptyString
  /\ log (after_ctx env_nofont fs_stale)
     = [ EvNew "RGB" (1000, 1000) "white"; EvDraw 0; EvLoadDefault;
         EvText (500, 400) "TEST LISTING" "red" None "mm"; EvLoadDefault ].
Proof. vm_compute. repeat split. Qed.

Example run_ctx_halffont :
  result_ctx env_halffont ∅ = Raise KeyboardInterrupt
  /\ font_calls (after_ctx env_halffont ∅) = 3%nat
  /\ globals (after_ctx env_halffont ∅) !! "font_large" = Some VNone
  /\ globals (after_ctx env_halffont ∅) !! "font_medium" = Some VNone.
Proof. vm_compute. repeat split. Qed.

Example run_ctx_late_font :
  result_ctx env_late_font ∅ = Ok tt
  /\ font_calls (after_ctx env_late_font ∅) = 2%nat
  /\ globals (after_ctx env_late_font ∅) !! "font_large" = Some VNone
  /\ pixel (after_ctx env_late_font ∅) (500, 400) = Some red.
Proof. vm_compute. repeat split. Qed.

(** ** Pixels under the drawing primitives *)

Lemma DIV255_exact v : 0 <= v <= 255 -> DIV255 (v * 255) = v.
Proof.
  intros Hv. unfold DIV255. cbv zeta.
  rewrite !Z.shiftr_div_pow2 by lia.
  change (2 ^ 8) with 256.
  assert (Hq : (v * 255 + 128) / 256 = if v <=? 128 then v else v - 1).
  { destruct (Z.leb_spec v 128);
      symmetry; apply Z.div_unique with (r := if v <=? 128 then 128 - v
                                             else 384 - v);
      destruct (Z.leb_spec v 128); lia. }
  rewrite Hq.
  destruct (Z.leb_spec v 128);
    symmetry; [ apply Z.div_unique with (r := 128)
              | apply Z.div_unique with (r := 127) ]; lia.
Qed.

Lemma BLEND_transparent old ink :
  0 <= old <= 255 -> BLEND 0 old ink = old.
Proof.
  intros H. unfold BLEND.
  rewrite Z.sub_0_r, Z.mul_0_r, Z.add_0_r. now apply DIV255_exact.
Qed.

Lemma getpixel_paste_clear im mask ink x y c :
  coverage (mask x y) = 0 -> valid_color c ->
  getpixel im (x, y) = Some c ->
  getpixel (paste_mask im mask ink) (x, y) = Some c.
Proof.
  intros Hm (Hr & Hg & Hb). unfold getpixel, paste_mask, in_image.
  cbn [im_width im_height im_px].
  destruct (_ && _); [ | discriminate ].
  intros [= <-]. rewrite Hm. unfold blend_color.
  rewrite !BLEND_transparent by assumption. now destruct (im_px im x y).
Qed.

Lemma getpixel_rect_outside im x0 y0 x1 y1 ink x y :
  in_box x0 y0 x1 y1 x y = false ->
  getpixel (fill_rect im x0 y0 x1 y1 ink) (x, y) = getpixel im (x, y).
Proof.
  intros Hb. unfold getpixel, fill_rect, in_image.
  cbn [im_width im_height im_px]. rewrite Hb.
  now rewrite andb_false_r.
Qed.

Lemma getpixel_rect_inside im x0 y0 x1 y1 ink x y :
  in_image im x y = true -> in_box x0 y0 x1 y1 x y = true ->
  getpixel (fill_rect im x0 y0 x1 y1 ink) (x, y) = Some ink.
Proof.
  intros Hi Hb. unfold getpixel. 
  change (in_image (fill_rect im x0 y0 x1 y1 ink) x y) with (in_image im x y).
  rewrite Hi. cbn [fill_rect im_px]. now rewrite Hi, Hb.
Qed.

Lemma result_run E fs : result E fs = outcome E.
Proof. unfold result, run. now rewrite main_run. Qed.

Lemma after_run E fs : after E fs = final E fs.
Proof. unfold after, run. now rewrite main_run. Qed.

Lemma img_after E fs : img_of (after E fs) = Some (drawn E).
Proof.
  rewrite after_run. unfold img_of, final. cbn [globals heap].
  now rewrite !lookup_insert_ne, lookup_insert_eq by discriminate.
Qed.

Lemma pixel_after E fs xy : pixel (after E fs) xy = getpixel (drawn E) xy.
Proof. unfold pixel. now rewrite img_after. Qed.

Lemma filter_loads (p : Event -> bool) n :
  p EvLoadDefault = false -> List.filter p (replicate n EvLoadDefault) = [].
Proof. intros H. induction n as [|n IH]; cbn; [ | rewrite H ]; trivial. Qed.

Lemma filter_log E fs (p : Event -> bool) :
  p EvLoadDefault = false ->
  List.filter p (log (after E fs))
  = (List.filter p [EvNew "RGB" (1000, 1000) "white"; EvDraw 0]
       ++ List.filter p draw_calls
       ++ List.filter p
            (EvSave out_path "JPEG" 95
             :: match open_for_write E out_path with
                | None => [EvPrint confirmation]
                | Some _ => []
                end))%list.
Proof.
  intros H. rewrite after_run. cbn [final log].
  rewrite !List.filter_app. now rewrite (filter_loads p _ H).
Qed.

Lemma drawn_ext E1 E2 : text_mask E1 = text_mask E2 -> drawn E1 = drawn E2.
Proof. intros H. unfold drawn, lettered. now rewrite H. Qed.

Lemma drawn_clear E x y :
  0 <= x < 1000 -> 0 <= y < 1000 ->
  forallb (fun ev => negb (touches E ev x y)) draw_calls = true ->
  getpixel (drawn E) (x, y) = Some white.
Proof.
  intros Hx Hy H. cbn [forallb draw_calls touches] in H.
  repeat (apply andb_prop in H; destruct H as [?H H]).
  repeat match goal with
         | Hn : negb _ = true |- _ => apply negb_true_iff in Hn
         | Hn : negb _ = false |- _ => apply negb_false_iff, Z.eqb_eq in Hn
         end.
  unfold drawn. rewrite !getpixel_rect_outside by assumption.
  unfold lettered.
  repeat (apply getpixel_paste_clear;
          [ assumption | repeat split; cbn; lia | ]).
  unfold getpixel, blank, in_image. cbn [im_width im_height im_px].
  replace ((0 <=? x) && (x <? 1000) && (0 <=? y) && (y <? 1000)) with true;
    [ reflexivity | ].
  symmetry. rewrite !andb_true_iff. lia.
Qed.

Lemma forallb_loads (p : Event -> bool) n :
  p EvLoadDefault = true -> forallb p (replicate n EvLoadDefault) = true.
Proof. intros H. induction n as [|n IH]; cbn; [ | rewrite H ]; trivial. Qed.

Lemma forallb_log E fs (p : Event -> bool) :
  p EvLoadDefault = true ->
  forallb p (log (after E fs))
  = forallb p [EvNew "RGB" (1000, 1000) "white"; EvDraw 0]
    && (forallb p draw_calls
        && forallb p
             (EvSave out_path "JPEG" 95
              :: match open_for_write E out_path with
                 | None => [EvPrint confirmation]
                 | Some _ => []
                 end)).
Proof.
  intros H. rewrite after_run. cbn [final log].
  rewrite !forallb_app. now rewrite (forallb_loads p _ H).
Qed.


Lemma in_box_spec x0 y0 x1 y1 x y :
  in_box x0 y0 x1 y1 x y = true <-> x0 <= x <= x1 /\ y0 <= y <= y1.
Proof. unfold in_box. rewrite !andb_true_iff, !Z.leb_le. lia. Qed.

Lemma in_image_spec im x y :
  in_image im x y = true
  <-> 0 <= x < im_width im /\ 0 <= y < im_height im.
Proof.
  unfold in_image. rewrite !andb_true_iff, !Z.leb_le, !Z.ltb_lt. lia.
Qed.

Lemma in_lettered E x y :
  0 <= x < 1000 -> 0 <= y < 1000 -> in_image (lettered E) x y = true.
Proof. intros Hx Hy. apply in_image_spec. cbn. lia. Qed.

Lemma coverage_range b : 0 <= coverage b <= 255.
Proof.
  unfold coverage. pose proof (Byte.to_N_bounded b). lia.
Qed.

Lemma DIV255_range a : 0 <= a <= 65025 -> 0 <= DIV255 a <= 255.
Proof.
  intros Ha. unfold DIV255. cbv zeta.
  rewrite !Z.shiftr_div_pow2 by lia. change (2 ^ 8) with 256.
  Z.div_mod_to_equations. lia.
Qed.

Lemma BLEND_range m old ink :
  0 <= m <= 255 -> 0 <= old <= 255 -> 0 <= ink <= 255 ->
  0 <= BLEND m old ink <= 255.
Proof.
  intros Hm Ho Hi. unfold BLEND. apply DIV255_range. nia.
Qed.

Lemma BLEND_opaque old ink : 0 <= ink <= 255 -> BLEND 255 old ink = ink.
Proof.
  intros Hi. unfold BLEND.
  rewrite Z.sub_diag, Z.mul_0_r, Z.add_0_l. now apply DIV255_exact.
Qed.

Lemma valid_blank mode w h c :
  valid_color c -> valid_canvas (blank mode w h c).
Proof. intros Hc x y. exact Hc. Qed.

Lemma valid_paste_mask im mask ink :
  valid_color ink -> valid_canvas im -> valid_canvas (paste_mask im mask ink).
Proof.
  intros (Hr & Hg & Hb) Him x y. specialize (Him x y).
  unfold paste_mask. cbn [im_px].
  destruct (in_image im x y); [ | exact Him ].
  destruct Him as (Hr' & Hg' & Hb').
  pose proof (coverage_range (mask x y)) as Hm.
  repeat split; cbn [blend_color c_r c_g c_b];
    apply BLEND_range; lia.
Qed.

Lemma valid_fill_rect im x0 y0 x1 y1 ink :
  valid_color ink -> valid_canvas im ->
  valid_canvas (fill_rect im x0 y0 x1 y1 ink).
Proof.
  intros Hi Him x y. unfold fill_rect. cbn [im_px].
  destruct (_ && _); [ exact Hi | apply Him ].
Qed.

Lemma valid_drawn E : valid_canvas (drawn E).
Proof.
  unfold drawn, lettered.
  repeat first [ apply valid_fill_rect | apply valid_paste_mask
               | apply valid_blank ];
    repeat split; cbn; lia.
Qed.

Lemma getpixel_paste_full im mask ink x y :
  coverage (mask x y) = 255 -> valid_color ink ->
  in_image im x y = true ->
  getpixel (paste_mask im mask ink) (x, y) = Some ink.
Proof.
  intros Hm (Hr & Hg & Hb) Hi. unfold getpixel.
  change (in_image (paste_mask im mask ink) x y) with (in_image im x y).
  rewrite Hi. cbn [paste_mask im_px]. rewrite Hi, Hm. unfold blend_color.
  rewrite !BLEND_opaque by assumption. now destruct ink.
Qed.


Lemma getpixel_paste im mask ink x y c :
  getpixel im (x, y) = Some c ->
  getpixel (paste_mask im mask ink) (x, y)
  = Some (blend_color (coverage (mask x y)) c ink).
Proof.
  unfold getpixel, paste_mask, in_image. cbn [im_width im_height im_px].
  destruct (_ && _); [ | discriminate ]. now intros [= <-].
Qed.

Lemma drawn_outside_boxes E x y :
  in_box 200 700 800 750 x y = false ->
  in_box 150 680 250 770 x y = false ->
  in_box 750 680 850 770 x y = false ->
  getpixel (drawn E) (x, y) = getpixel (lettered E) (x, y).
Proof.
  intros Hw Hl Hr. unfold drawn.
  now rewrite !getpixel_rect_outside by assumption.
Qed.

Lemma drawn_by_ext E E' font font' :
  text_mask E font = text_mask E' font' ->
  drawn_by E font = drawn_by E' font'.
Proof. intros H. unfold drawn_by, lettered_by. now rewrite H. Qed.

Lemma Forall_loads (P : Event -> Prop) n :
  P EvLoadDefault -> Forall P (replicate n EvLoadDefault).
Proof. intros H. induction n as [|n IH]; cbn; constructor; trivial. Qed.

Lemma filter_ctx_prefix E (p : Event -> bool) :
  p EvLoadDefault = false ->
  List.filter p (calls_to_first_text E)
  = List.filter p
      [ EvNew "RGB" (1000, 1000) "white"; EvDraw 0;
        EvText (500, 400) "TEST LISTING" "red" None "mm" ].
Proof.
  intros H. unfold calls_to_first_text.
  rewrite !List.filter_app, (filter_loads p _ H). cbn. rewrite H.
  now destruct (p (EvNew _ _ _)), (p (EvDraw _)), (p (EvText _ _ _ _ _)).
Qed.

(** When the context's own load succeeds and the renderer draws with that
    font as it does with none given, the run over the context leaves what
    the run over [ImageDraw.text] leaves. *)
Lemma context_run_agrees E fs f :
  context_load E = Ok f ->
  text_mask E (Some f) = text_mask E None ->
  result_ctx E fs = result E fs
  /\ heap (after_ctx E fs) = heap (after E fs)
  /\ globals (after_ctx E fs) = globals (after E fs)
  /\ files (after_ctx E fs) = files (after E fs)
  /\ stdout (after_ctx E fs) = stdout (after E fs)
  /\ List.filter (fun ev => negb (is_load ev)) (log (after_ctx E fs))
     = List.filter (fun ev => negb (is_load ev)) (log (after E fs)).
Proof.
  intros Hl Hm.
  assert (Hd : drawn_by E (Some f) = drawn E)
    by (change (drawn E) with (drawn_by E None); now apply drawn_by_ext).
  rewrite result_ctx_run, result_run, after_ctx_run, after_run.
  unfold outcome_ctx, final_ctx. rewrite Hl.
  cbn [final heap globals files stdout log]. rewrite Hd.
  repeat split.
  rewrite !List.filter_app, filter_ctx_prefix by reflexivity.
  rewrite (filter_loads (fun ev => negb (is_load ev))) by reflexivity.
  now destruct (open_for_write E out_path).
Qed.

(** The sample renderers and the anchor. *)

Lemma covered_block font s xy x y :
  covered (block_mask font s "mm" xy) x y
  = in_box (fst xy - 6 * Z.of_nat (String.length s) / 2) (snd xy - 5)
           (fst xy - 6 * Z.of_nat (String.length s) / 2
            + 6 * Z.of_nat (String.length s) - 1)
           (snd xy - 5 + 11 - 1) x y.
Proof.
  unfold covered, block_mask. cbn [String.eqb Ascii.eqb Bool.eqb].
  change (11 / 2) with 5.
  now destruct (in_box _ _ _ _ x y).
Qed.

Lemma block_mask_centred font s xy :
  s <> EmptyString -> centred_at (block_mask font s "mm" xy) xy.
Proof.
  intros Hs.
  assert (Hn : 1 <= Z.of_nat (String.length s))
    by (destruct s; [ congruence | cbn [String.length]; lia ]).
  set (n := Z.of_nat (String.length s)) in *.
  assert (Hq : 6 * n / 2 = 3 * n)
    by (replace (6 * n) with (3 * n * 2) by lia; now apply Z.div_mul).
  exists (fst xy - 3 * n), (snd xy - 5),
         (fst xy - 3 * n + 6 * n - 1), (snd xy - 5 + 11 - 1).
  split; [ | lia ].
  unfold bounding_box.
  repeat split.
  - rewrite covered_block in H. fold n in H. rewrite Hq in H.
    apply in_box_spec in H. lia.
  - rewrite covered_block in H. fold n in H. rewrite Hq in H.
    apply in_box_spec in H. lia.
  - rewrite covered_block in H. fold n in H. rewrite Hq in H.
    apply in_box_spec in H. lia.
  - rewrite covered_block in H. fold n in H. rewrite Hq in H.
    apply in_box_spec in H. lia.
  - exists (snd xy - 5). rewrite covered_block. fold n. rewrite Hq.
    apply in_box_spec. lia.
  - exists (snd xy - 5). rewrite covered_block. fold n. rewrite Hq.
    apply in_box_spec. lia.
  - exists (fst xy - 3 * n). rewrite covered_block. fold n. rewrite Hq.
    apply in_box_spec. lia.
  - exists (fst xy - 3 * n). rewrite covered_block. fold n. rewrite Hq.
    apply in_box_spec. lia.
Qed.

Lemma env_ok_honours_mm : honours_mm env_ok.
Proof. intros font s xy Hs. now apply block_mask_centred. Qed.

Lemma covered_bitmap_first x y :
  covered (text_mask env_bitmap None "TEST LISTING" "mm" (500, 400)) x y
  = in_box 500 400 571 410 x y.
Proof.
  unfold covered.
  change (text_mask env_bitmap None "TEST LISTING" "mm" (500, 400) x y)
    with (if in_box 500 400 571 410 x y then Byte.xff else Byte.x00).
  now destruct (in_box 500 400 571 410 x y).
Qed.
(** ** The drawn picture *)

(** C1: once all drawing is done the pixel (500,725), the centre of the
    wire, is black, and the pixels (200,725) and (800,725), the centres of
    the connectors, are gray.  Both connector centres lie inside the wire
    rectangle as well; they are gray because the connectors are drawn
    after the wire. *)
Theorem wire_black_connectors_gray E fs :
  pixel (after E fs) (500, 725) = Some black
  /\ pixel (after E fs) (200, 725) = Some gray
  /\ pixel (after E fs) (800, 725) = Some gray
  /\ getrgb "black" = Some black /\ getrgb "gray" = Some gray
  /\ touches E (EvRectangle [200; 700; 800; 750] "black") 200 725
     && touches E (EvRectangle [150; 680; 250; 770] "gray") 200 725 = true
  /\ touches E (EvRectangle [200; 700; 800; 750] "black") 800 725
     && touches E (EvRectangle [750; 680; 850; 770] "gray") 800 725 = true
  /\ List.filter is_rectangle (log (after E fs))
     = [ EvRectangle [200; 700; 800; 750] "black";
         EvRectangle [150; 680; 250; 770] "gray";
         EvRectangle [750; 680; 850; 770] "gray" ].
Proof.
  rewrite !pixel_after, filter_log by reflexivity.
  repeat split; try reflexivity.
  now destruct (open_for_write E out_path).
Qed.


(** C6 (as amended): exactly three strings are drawn, in this order, each
    with the anchor ['mm'] at its point: "TEST LISTING" in red at
    (500,400), "Wire Harness" in black at (500,500), "DELETE ME" in red at
    (500,600); outside the rectangles every pixel is what these three
    pastes over white leave.  With a renderer that honours ['mm'] each
    point is the centre of its rendered string. *)
Theorem three_texts_drawn E fs :
  List.filter is_text (log (after E fs))
  = [ EvText (500, 400) "TEST LISTING" "red" None "mm";
      EvText (500, 500) "Wire Harness" "black" None "mm";
      EvText (500, 600) "DELETE ME" "red" None "mm" ]
  /\ getrgb "red" = Some (RGB 255 0 0)
  /\ getrgb "black" = Some (RGB 0 0 0)
  /\ (forall x y,
        0 <= x < 1000 -> 0 <= y < 1000 ->
        in_box 200 700 800 750 x y = false ->
        in_box 150 680 250 770 x y = false ->
        in_box 750 680 850 770 x y = false ->
        pixel (after E fs) (x, y) = Some (text_over E x y))
  /\ (honours_mm E ->
      Forall (centred_call E) (List.filter is_text (log (after E fs)))).
Proof.
  rewrite filter_log by reflexivity.
  replace (List.filter is_text
             (EvSave out_path "JPEG" 95
              :: match open_for_write E out_path with
                 | Some _ => []
                 | None => [EvPrint confirmation]
                 end)) with (@nil Event)
    by now destruct (open_for_write E out_path).
  repeat split.
  - intros x y Hx Hy Hw Hl Hr.
    rewrite pixel_after, drawn_outside_boxes by assumption.
    unfold lettered, text_over.
    do 3 apply getpixel_paste.
    unfold getpixel, blank. cbn [im_px].
    replace (in_image _ x y) with true; [ reflexivity | ].
    symmetry. apply in_image_spec. cbn. lia.
  - intros Hmm. cbn.
    repeat constructor; apply Hmm; discriminate.
Qed.

(** C6, the claim as it stands: a renderer that ignores the anchor, as
    the built-in bitmap font does, draws "TEST LISTING" from (500,400)
    to the right and downwards, so that point is not its centre. *)
Lemma anchor_can_be_ignored :
  ~ Forall (centred_call env_bitmap)
      (List.filter is_text (log (after env_bitmap ∅))).
Proof.
  assert (Htexts : List.filter is_text (log (after env_bitmap ∅))
                   = [ EvText (500, 400) "TEST LISTING" "red" None "mm";
                       EvText (500, 500) "Wire Harness" "black" None "mm";
                       EvText (500, 600) "DELETE ME" "red" None "mm" ])
    by (rewrite filter_log by reflexivity; reflexivity).
  rewrite Htexts. intros H. apply Forall_inv in H.
  unfold centred_call, centred_at in H.
  destruct H as (x0 & y0 & x1 & y1 & (Hall & [y Hx0] & _) & Hx & _).
  rewrite covered_bitmap_first in Hx0. apply in_box_spec in Hx0.
  assert (Hcorner : covered (text_mask env_bitmap None "TEST LISTING" "mm"
                               (500, 400)) 571 400 = true)
    by now rewrite covered_bitmap_first.
  apply Hall in Hcorner. cbn [fst] in Hx. lia.
Qed.

Lemma three_texts_drawn_witness :
  pixel (after env_ok fs_stale) (470, 400)
  = Some (text_over env_ok 470 400)
  /\ Forall (centred_call env_ok)
       (List.filter is_text (log (after env_ok fs_stale))).
Proof.
  pose proof (three_texts_drawn env_ok fs_stale)
    as (_ & _ & _ & Hpixel & Hcentre).
  split.
  - apply Hpixel; (lia || reflexivity).
  - apply Hcentre. exact env_ok_honours_mm.
Defined.

(** C7: exactly three filled rectangles are drawn, in this order and after
    all the text: black (200,700)-(800,750), gray (150,680)-(250,770),
    gray (750,680)-(850,770).  On the canvas both gray boxes are filled
    corner to corner, the black box is filled wherever the gray ones,
    drawn over it, do not lie, and no pixel outside the three boxes is
    changed by them. *)
Theorem three_rectangles_after_text E fs :
  List.filter is_rectangle (log (after E fs))
  = [ EvRectangle [200; 700; 800; 750] "black";
      EvRectangle [150; 680; 250; 770] "gray";
      EvRectangle [750; 680; 850; 770] "gray" ]
  /\ List.filter is_draw_call (log (after E fs))
     = (List.filter is_text (log (after E fs))
          ++ List.filter is_rectangle (log (after E fs)))%list
  /\ getrgb "black" = Some (RGB 0 0 0)
  /\ getrgb "gray" = Some (RGB 128 128 128)
  /\ (forall x y,
        in_box 150 680 250 770 x y = true ->
        pixel (after E fs) (x, y) = Some (RGB 128 128 128))
  /\ (forall x y,
        in_box 750 680 850 770 x y = true ->
        pixel (after E fs) (x, y) = Some (RGB 128 128 128))
  /\ (forall x y,
        in_box 200 700 800 750 x y = true ->
        in_box 150 680 250 770 x y = false ->
        in_box 750 680 850 770 x y = false ->
        pixel (after E fs) (x, y) = Some (RGB 0 0 0))
  /\ (forall x y,
        in_box 200 700 800 750 x y = false ->
        in_box 150 680 250 770 x y = false ->
        in_box 750 680 850 770 x y = false ->
        pixel (after E fs) (x, y) = getpixel (lettered E) (x, y)).
Proof.
  rewrite (filter_log E fs is_rectangle), (filter_log E fs is_draw_call),
    (filter_log E fs is_text) by reflexivity.
  split; [ now destruct (open_for_write E out_path) | ].
  split; [ now destruct (open_for_write E out_path) | ].
  split; [ reflexivity | ]. split; [ reflexivity | ].
  split; [ | split; [ | split ] ]; intros x y; rewrite pixel_after.
  - intros Hl. unfold drawn.
    assert (Hin : in_image (lettered E) x y = true)
      by (apply in_lettered; apply in_box_spec in Hl; lia).
    destruct (in_box 750 680 850 770 x y) eqn:Hr.
    + apply (getpixel_rect_inside _ 750 680 850 770 gray x y);
        [ exact Hin | exact Hr ].
    + rewrite getpixel_rect_outside by exact Hr.
      apply (getpixel_rect_inside _ 150 680 250 770 gray x y);
        [ exact Hin | exact Hl ].
  - intros Hr. unfold drawn.
    assert (Hin : in_image (lettered E) x y = true)
      by (apply in_lettered; apply in_box_spec in Hr; lia).
    apply (getpixel_rect_inside _ 750 680 850 770 gray x y);
      [ exact Hin | exact Hr ].
  - intros Hw Hl Hr. unfold drawn.
    rewrite getpixel_rect_outside by exact Hr.
    rewrite getpixel_rect_outside by exact Hl.
    apply (getpixel_rect_inside _ 200 700 800 750 black x y);
      [ | exact Hw ].
    apply in_lettered; apply in_box_spec in Hw; lia.
  - intros Hw Hl Hr. apply drawn_outside_boxes; assumption.
Qed.

Lemma three_rectangles_after_text_witness :
  pixel (after env_ok fs_stale) (150, 680) = Some (RGB 128 128 128)
  /\ pixel (after env_ok fs_stale) (850, 770) = Some (RGB 128 128 128)
  /\ pixel (after env_ok fs_stale) (251, 750) = Some (RGB 0 0 0)
  /\ pixel (after env_ok fs_stale) (500, 699)
     = getpixel (lettered env_ok) (500, 699).
Proof.
  pose proof (three_rectangles_after_text env_ok fs_stale)
    as (_ & _ & _ & _ & Hleft & Hright & Hwire & Hrest).
  split; [ | split; [ | split ] ].
  - apply Hleft. reflexivity.
  - apply Hright. reflexivity.
  - apply Hwire; reflexivity.
  - apply Hrest; reflexivity.
Defined.
(** C8: a pixel of the canvas that no rectangle contains and no text
    covers is still white after all drawing.  The pixel (10,10) is outside
    the three rectangles, so it is white as soon as no text reaches it. *)
Theorem background_stays_white E fs :
  (forall x y,
      0 <= x < 1000 -> 0 <= y < 1000 ->
      forallb (fun ev => negb (touches E ev x y)) (log (after E fs)) = true ->
      pixel (after E fs) (x, y) = Some white)
  /\ (forallb (fun ev => negb (is_text ev && touches E ev 10 10))
              (log (after E fs)) = true ->
      pixel (after E fs) (10, 10) = Some white)
  /\ forallb (fun ev => negb (is_rectangle ev && touches E ev 10 10))
             (log (after E fs)) = true
  /\ getrgb "white" = Some white.
Proof.
  repeat split.
  - intros x y Hx Hy H. rewrite pixel_after.
    rewrite forallb_log in H by reflexivity.
    apply drawn_clear; trivial.
    apply andb_prop in H as [_ H]. now apply andb_prop in H as [H _].
  - intros H. rewrite pixel_after.
    rewrite forallb_log in H by reflexivity.
    apply andb_prop in H as [_ H]. apply andb_prop in H as [H _].
    apply drawn_clear; [ lia | lia | ].
    cbn [forallb draw_calls is_text touches andb] in *.
    exact H.
  - rewrite forallb_log by reflexivity.
    now destruct (open_for_write E out_path).
Qed.

Lemma background_stays_white_witness :
  pixel (after env_ok fs_stale) (10, 10) = Some white
  /\ pixel (after env_ok fs_stale) (990, 500) = Some white.
Proof.
  split.
  - apply (proj1 (proj2 (background_stays_white env_ok fs_stale))).
    vm_compute. reflexivity.
  - apply (proj1 (background_stays_white env_ok fs_stale) 990 500); try lia.
    vm_compute. reflexivity.
Defined.

(** ** The canvas and the output file *)

(** C5: the script creates exactly one canvas, an RGB raster 1000 wide and
    1000 high whose pixels are all white at creation, and the image it
    encodes into the output file is 1000 by 1000. *)
Theorem one_white_canvas E fs :
  List.filter is_new (log (after E fs)) = [EvNew "RGB" (1000, 1000) "white"]
  /\ length (heap (after E fs)) = 1%nat
  /\ Image.new "RGB" (1000, 1000) "white" (init fs)
     = (Ok (VImage 0),
        mkWorld [blank "RGB" 1000 1000 white] ∅ fs EmptyString 0%nat
                [EvNew "RGB" (1000, 1000) "white"] None)
  /\ (forall x y, 0 <= x < 1000 -> 0 <= y < 1000 ->
        getpixel (blank "RGB" 1000 1000 white) (x, y) = getrgb "white")
  /\ (exists im, img_of (after E fs) = Some im /\ im_mode im = "RGB"
                 /\ im_width im = 1000 /\ im_height im = 1000)
  /\ (open_for_write E out_path = None ->
      exists f, files (after E fs) !! out_path = Some f
                /\ f_width f = 1000 /\ f_height f = 1000).
Proof.
  rewrite filter_log by reflexivity. rewrite img_after, after_run.
  repeat split.
  - now destruct (open_for_write E out_path).
  - intros x y Hx Hy. unfold getpixel, blank, in_image.
    cbn [im_width im_height im_px].
    replace ((0 <=? x) && (x <? 1000) && (0 <=? y) && (y <? 1000)) with true;
      [ reflexivity | ].
    symmetry. rewrite !andb_true_iff. lia.
  - now exists (drawn E).
  - intros Ho. cbn [final files]. rewrite Ho.
    exists (encoded E). now rewrite lookup_insert_eq.
Qed.

Lemma one_white_canvas_witness :
  getpixel (blank "RGB" 1000 1000 white) (999, 0) = getrgb "white"
  /\ exists f, files (after env_ok fs_stale) !! out_path = Some f
               /\ f_width f = 1000 /\ f_height f = 1000.
Proof.
  pose proof (one_white_canvas env_ok fs_stale)
    as (_ & _ & _ & Hwhite & _ & Hfile).
  split; [ apply Hwhite; lia | apply Hfile; reflexivity ].
Defined.

(** C4: the save comes after all six drawing calls and is the only one; it
    writes the JPEG encoding at quality 95 of the canvas as drawn to the
    relative path test-images/test-wire-harness.jpg, whether or not a file
    was there before, and no other file is changed. *)
Theorem saved_after_drawing E fs :
  List.filter (fun ev => is_draw_call ev || is_save ev) (log (after E fs))
  = (draw_calls
       ++ [EvSave "test-images/test-wire-harness.jpg" "JPEG" 95])%list
  /\ img_of (after E fs) = Some (drawn E)
  /\ (open_for_write E "test-images/test-wire-harness.jpg" = None ->
      files (after E fs)
      = <["test-images/test-wire-harness.jpg" :=
            mkFile "JPEG" (im_width (drawn E)) (im_height (drawn E)) 95
                   (jpeg_scan E (drawn E) 95)]> fs)
  /\ (forall p, p <> "test-images/test-wire-harness.jpg" ->
        files (after E fs) !! p = fs !! p)
  /\ String.prefix "/" "test-images/test-wire-harness.jpg" = false.
Proof.
  rewrite filter_log by reflexivity. rewrite img_after, after_run.
  cbn [final files]. fold out_path.
  repeat split.
  - now destruct (open_for_write E out_path).
  - now intros ->.
  - intros p Hp. destruct (open_for_write E out_path); [ reflexivity | ].
    now rewrite lookup_insert_ne.
Qed.

Lemma saved_after_drawing_witness :
  files (after env_ok fs_stale)
  = <[out_path := mkFile "JPEG" 1000 1000 95 []]> fs_stale
  /\ files (after env_ok fs_stale) !! "notes.txt" = fs_stale !! "notes.txt".
Proof.
  split.
  - apply (saved_after_drawing env_ok fs_stale). reflexivity.
  - apply (saved_after_drawing env_ok fs_stale). discriminate.
Defined.

(** ** Output and failures *)

(** C2: when the run succeeds, standard output is exactly the line
    "Test image created: test-images/test-wire-harness.jpg" and a newline,
    printed after the save; when opening the output path fails, that error
    ends the run and nothing is printed. *)
Theorem confirmation_after_save E fs :
  (result E fs = Ok tt ->
     stdout (after E fs)
     = "Test image created: test-images/test-wire-harness.jpg" +:+ newline
     /\ List.filter (fun ev => is_save ev || is_print ev) (log (after E fs))
        = [ EvSave "test-images/test-wire-harness.jpg" "JPEG" 95;
            EvPrint "Test image created: test-images/test-wire-harness.jpg" ]
     /\ is_Some (files (after E fs) !! "test-images/test-wire-harness.jpg"))
  /\ (forall e,
        open_for_write E "test-images/test-wire-harness.jpg" = Some e ->
        result E fs = Raise e
        /\ stdout (after E fs) = EmptyString
        /\ List.filter is_print (log (after E fs)) = [])
  /\ newline = String (ascii_of_nat 10) EmptyString.
Proof.
  rewrite result_run, !filter_log by reflexivity. rewrite after_run.
  unfold outcome. cbn [final files stdout]. fold out_path.
  repeat split.
  - destruct (open_for_write E out_path); [ discriminate | reflexivity ].
  - destruct (open_for_write E out_path); [ discriminate | reflexivity ].
  - destruct (open_for_write E out_path); [ discriminate | ].
    rewrite lookup_insert_eq. now eexists.
  - now rewrite H.
  - now rewrite H.
  - now rewrite H.
Qed.

Lemma confirmation_after_save_witness :
  stdout (after env_ok fs_stale)
  = "Test image created: test-images/test-wire-harness.jpg" +:+ newline
  /\ result env_nodir ∅ = Raise (OSError 2)
  /\ stdout (after env_nodir ∅) = EmptyString.
Proof.
  split.
  - apply (proj1 (confirmation_after_save env_ok fs_stale)).
    vm_compute. reflexivity.
  - pose proof (proj1 (proj2 (confirmation_after_save env_nodir ∅))
                  (OSError 2) eq_refl) as (Hr & Hs & _).
    split; [ exact Hr | exact Hs ].
Defined.




(** ** Two runs compared *)

(** C9: two runs with the same text renderer and the same JPEG codec leave
    the same canvas and draw the same things, whatever files existed
    before and whether or not the save succeeds; when both saves succeed
    the encoded outputs are equal, and with the same font outcomes the
    names of the script are bound to the same values. *)
Theorem runs_agree E1 E2 fs1 fs2 :
  text_mask E1 = text_mask E2 ->
  jpeg_scan E1 = jpeg_scan E2 ->
  heap (after E1 fs1) = heap (after E2 fs2)
  /\ (forall xy, pixel (after E1 fs1) xy = pixel (after E2 fs2) xy)
  /\ List.filter is_draw_call (log (after E1 fs1))
     = List.filter is_draw_call (log (after E2 fs2))
  /\ (open_for_write E1 out_path = None ->
      open_for_write E2 out_path = None ->
      files (after E1 fs1) !! out_path = files (after E2 fs2) !! out_path)
  /\ (font_load E1 0%nat = font_load E2 0%nat ->
      font_load E1 1%nat = font_load E2 1%nat ->
      globals (after E1 fs1) = globals (after E2 fs2)).
Proof.
  intros Ht Hj.
  pose proof (drawn_ext E1 E2 Ht) as Hd.
  split; [ rewrite !after_run; cbn [final heap]; now rewrite Hd | ].
  split; [ intros xy; now rewrite !pixel_after, Hd | ].
  split.
  { rewrite !filter_log by reflexivity.
    now destruct (open_for_write E1 out_path), (open_for_write E2 out_path). }
  rewrite !after_run. cbn [final files globals].
  split.
  - intros -> ->. rewrite !lookup_insert_eq.
    unfold encoded. now rewrite Hd, Hj.
  - intros H0 H1. unfold fonts. now rewrite H0, H1.
Qed.

Lemma runs_agree_witness :
  heap (after env_ok fs_stale) = heap (after env_nodir ∅)
  /\ files (after env_ok ∅) !! out_path
     = files (after env_ok fs_stale) !! out_path
  /\ globals (after env_ok fs_stale) = globals (after env_nodir ∅).
Proof.
  pose proof (runs_agree env_ok env_nodir fs_stale ∅ eq_refl eq_refl)
    as (Hheap & _ & _ & _ & Hglobals).
  pose proof (runs_agree env_ok env_ok ∅ fs_stale eq_refl eq_refl)
    as (_ & _ & _ & Hfiles & _).
  split; [ exact Hheap | ].
  split; [ apply Hfiles; reflexivity | apply Hglobals; reflexivity ].
Defined.


Lemma font_of_log_ctx E fs :
  Forall (fun ev => font_of ev = None) (log (after_ctx E fs)).
Proof.
  rewrite after_ctx_run. unfold final_ctx, calls_to_first_text.
  destruct (context_load E); cbn [log];
    rewrite ?Forall_app; repeat split;
    try (apply Forall_loads; reflexivity);
    try (repeat constructor).
  destruct (open_for_write E out_path); repeat constructor.
Qed.

(** C10 (as amended): no text call is given a font, so the picture does
    not depend on the outcome of the font loading of lines 9 to 15: two
    runs that differ in it, and in which the drawing context then loads
    the same default font for itself, make the same drawing calls and
    leave the same canvas and the same files. *)
Theorem picture_independent_of_fonts E fl fl' fs f :
  Forall (fun ev => font_of ev = None)
         (log (after_ctx (with_font_load fl E) fs))
  /\ (context_load (with_font_load fl E) = Ok f ->
      context_load (with_font_load fl' E) = Ok f ->
      List.filter is_draw_call (log (after_ctx (with_font_load fl E) fs))
      = List.filter is_draw_call (log (after_ctx (with_font_load fl' E) fs))
      /\ heap (after_ctx (with_font_load fl E) fs)
         = heap (after_ctx (with_font_load fl' E) fs)
      /\ img_of (after_ctx (with_font_load fl E) fs)
         = img_of (after_ctx (with_font_load fl' E) fs)
      /\ files (after_ctx (with_font_load fl E) fs)
         = files (after_ctx (with_font_load fl' E) fs)).
Proof.
  split; [ apply font_of_log_ctx | ].
  intros Hl Hl'. rewrite !after_ctx_run. unfold final_ctx, img_of.
  rewrite Hl, Hl'. cbn [heap files log globals].
  unfold bindings.
  rewrite !List.filter_app, !filter_ctx_prefix by reflexivity.
  rewrite !lookup_insert_ne, !lookup_insert_eq by discriminate.
  now repeat split.
Qed.

(** C10, the claim as it stands: when the default font cannot be loaded
    at all, the first [draw.text] raises and the canvas stays blank, so
    the picture is not the one of a run in which the fonts load. *)
Lemma picture_depends_on_font_loading :
  ~ (forall fl fl',
       img_of (after_ctx (with_font_load fl env_ok) ∅)
       = img_of (after_ctx (with_font_load fl' env_ok) ∅)).
Proof.
  intros H.
  specialize (H (fun n => Ok (FontObj n)) (fun _ => Raise (OSError 2))).
  apply (f_equal (fun o => match o with
                           | Some im => getpixel im (500, 725)
                           | None => None
                           end)) in H.
  vm_compute in H. discriminate H.
Qed.

Lemma picture_independent_of_fonts_witness :
  heap (after_ctx (with_font_load (fun _ => Ok (FontObj 1)) env_ok) fs_stale)
  = heap (after_ctx env_late_font fs_stale)
  /\ files (after_ctx (with_font_load (fun _ => Ok (FontObj 1)) env_ok)
                      fs_stale)
     = files (after_ctx env_late_font fs_stale).
Proof.
  pose proof (picture_independent_of_fonts env_ok
                (fun _ => Ok (FontObj 1))
                (fun n => match n with
                          | O => Raise (OSError 2)
                          | S _ => Ok (FontObj n)
                          end)
                fs_stale (FontObj 1)) as (_ & H).
  destruct (H eq_refl eq_refl) as (_ & Hheap & _ & Hfiles).
  split; [ exact Hheap | exact Hfiles ].
Defined.
(** ** More about the picture *)

(** X1: whatever the renderer puts on the canvas, the harness shape is
    solid: every pixel of either connector box is gray, and every pixel of
    the wire box outside both connectors is black. *)
Theorem harness_solid E fs x y :
  (in_box 150 680 250 770 x y = true \/ in_box 750 680 850 770 x y = true ->
   pixel (after E fs) (x, y) = Some gray)
  /\ (in_box 200 700 800 750 x y = true ->
      in_box 150 680 250 770 x y = false ->
      in_box 750 680 850 770 x y = false ->
      pixel (after E fs) (x, y) = Some black).
Proof.
  rewrite pixel_after. unfold drawn. split.
  - intros H.
    assert (Hin : in_image (lettered E) x y = true).
    { apply in_lettered; destruct H as [H|H]; apply in_box_spec in H; lia. }
    destruct (in_box 750 680 850 770 x y) eqn:Hr.
    + now apply getpixel_rect_inside.
    + destruct H as [H|H]; [ | discriminate ].
      rewrite getpixel_rect_outside by assumption.
      now apply getpixel_rect_inside.
  - intros Hw Hl Hr.
    rewrite !getpixel_rect_outside by assumption.
    apply getpixel_rect_inside; [ | assumption ].
    apply in_lettered; apply in_box_spec in Hw; lia.
Qed.

Lemma harness_solid_witness :
  pixel (after env_ok fs_stale) (250, 770) = Some gray
  /\ pixel (after env_ok fs_stale) (750, 680) = Some gray
  /\ pixel (after env_ok fs_stale) (251, 700) = Some black.
Proof.
  split; [ | split ].
  - apply (proj1 (harness_solid env_ok fs_stale 250 770)).
    left. reflexivity.
  - apply (proj1 (harness_solid env_ok fs_stale 750 680)).
    right. reflexivity.
  - apply (proj2 (harness_solid env_ok fs_stale 251 700)); reflexivity.
Defined.

(** X2: the six drawing calls keep the canvas 1000 by 1000 and its
    channels 8-bit, for every renderer: a coordinate inside the square has
    a pixel with all three channels in 0..255, one outside has none. *)
Theorem canvas_bounds_and_channels E fs x y :
  (0 <= x < 1000 /\ 0 <= y < 1000 ->
   exists c, pixel (after E fs) (x, y) = Some c /\ valid_color c)
  /\ (~ (0 <= x < 1000 /\ 0 <= y < 1000) ->
      pixel (after E fs) (x, y) = None).
Proof.
  rewrite pixel_after. unfold getpixel.
  destruct (in_image (drawn E) x y) eqn:Hi; split.
  - intros _. eexists. split; [ reflexivity | apply valid_drawn ].
  - intros Hn. apply in_image_spec in Hi. cbn in Hi. lia.
  - intros Hxy. assert (in_image (drawn E) x y = true) as Ht
        by (apply in_image_spec; cbn; lia).
    congruence.
  - reflexivity.
Qed.

Lemma canvas_bounds_and_channels_witness :
  (exists c, pixel (after env_ok fs_stale) (999, 999) = Some c
             /\ valid_color c)
  /\ pixel (after env_ok fs_stale) (0, 1000) = None.
Proof.
  split.
  - apply (proj1 (canvas_bounds_and_channels env_ok fs_stale 999 999)). lia.
  - apply (proj2 (canvas_bounds_and_channels env_ok fs_stale 0 1000)). lia.
Defined.

(** X3: outside the rectangles the text drawn last wins.  A pixel that
    "DELETE ME" covers fully is red; one that "Wire Harness" covers fully
    and "DELETE ME" leaves alone is black; one that "TEST LISTING" covers
    fully and the two later texts leave alone is red. *)
Theorem later_text_wins E fs x y :
  0 <= x < 1000 -> 0 <= y < 1000 ->
  in_box 200 700 800 750 x y = false ->
  in_box 150 680 250 770 x y = false ->
  in_box 750 680 850 770 x y = false ->
  (coverage (text_mask E None "DELETE ME" "mm" (500, 600) x y) = 255 ->
   pixel (after E fs) (x, y) = Some red)
  /\ (coverage (text_mask E None "Wire Harness" "mm" (500, 500) x y) = 255 ->
      coverage (text_mask E None "DELETE ME" "mm" (500, 600) x y) = 0 ->
      pixel (after E fs) (x, y) = Some black)
  /\ (coverage (text_mask E None "TEST LISTING" "mm" (500, 400) x y) = 255 ->
      coverage (text_mask E None "Wire Harness" "mm" (500, 500) x y) = 0 ->
      coverage (text_mask E None "DELETE ME" "mm" (500, 600) x y) = 0 ->
      pixel (after E fs) (x, y) = Some red).
Proof.
  intros Hx Hy Hw Hl Hr. rewrite pixel_after. unfold drawn.
  rewrite !getpixel_rect_outside by assumption. unfold lettered.
  assert (Hin : forall im, im_width im = 1000 -> im_height im = 1000 ->
                           in_image im x y = true).
  { intros im Hwd Hht. apply in_image_spec. lia. }
  assert (Hred : valid_color red) by (repeat split; cbn; lia).
  assert (Hblack : valid_color black) by (repeat split; cbn; lia).
  split; [ | split ].
  - intros H3. apply getpixel_paste_full; auto.
  - intros H2 H3. apply getpixel_paste_clear; auto.
    apply getpixel_paste_full; auto.
  - intros H1 H2 H3. do 2 (apply getpixel_paste_clear; auto).
    apply getpixel_paste_full; auto.
Qed.

Lemma later_text_wins_witness :
  pixel (after env_ok fs_stale) (473, 600) = Some red
  /\ pixel (after env_ok fs_stale) (535, 505) = Some black
  /\ pixel (after env_ok fs_stale) (464, 395) = Some red.
Proof.
  pose proof (later_text_wins env_ok fs_stale 473 600 ltac:(lia) ltac:(lia)
                eq_refl eq_refl eq_refl) as (Hlast & _ & _).
  pose proof (later_text_wins env_ok fs_stale 535 505 ltac:(lia) ltac:(lia)
                eq_refl eq_refl eq_refl) as (_ & Hmiddle & _).
  pose proof (later_text_wins env_ok fs_stale 464 395 ltac:(lia) ltac:(lia)
                eq_refl eq_refl eq_refl) as (_ & _ & Hfirst).
  split; [ | split ].
  - apply Hlast. reflexivity.
  - apply Hmiddle; reflexivity.
  - apply Hfirst; reflexivity.
Defined.


(** ** More about the run *)

Lemma loads_in_log_ctx E fs :
  length (List.filter is_load (log (after_ctx E fs))) = S (load_calls E).
Proof.
  rewrite after_ctx_run. unfold final_ctx, calls_to_first_text.
  assert (Hrep : forall n,
             List.filter is_load (replicate n EvLoadDefault)
             = replicate n EvLoadDefault)
    by (induction n as [|n IH]; cbn; congruence).
  destruct (context_load E); cbn [log];
    rewrite !List.filter_app, Hrep, !length_app, length_replicate.
  - destruct (open_for_write E out_path); cbn; lia.
  - cbn. lia.
Qed.

(** X4: the [try] stops at the first failure, and the drawing context
    then loads the default font once more for itself.  When both calls of
    the [try] succeed, [font_large] holds the font of the first and
    [font_medium] that of the second, and the run makes three
    [load_default] calls; when only the second raises it makes three as
    well; when the first raises the second is never made, and the run
    makes two.  The trace holds as many [load_default] calls as were
    made. *)
Theorem font_loading_calls E fs :
  (forall f0 f1,
      font_load E 0%nat = Ok f0 -> font_load E 1%nat = Ok f1 ->
      globals (after_ctx E fs) !! "font_large" = Some (VFont f0)
      /\ globals (after_ctx E fs) !! "font_medium" = Some (VFont f1)
      /\ font_calls (after_ctx E fs) = 3%nat)
  /\ (forall f0 e,
        font_load E 0%nat = Ok f0 -> font_load E 1%nat = Raise e ->
        font_calls (after_ctx E fs) = 3%nat)
  /\ (forall e,
        font_load E 0%nat = Raise e -> font_calls (after_ctx E fs) = 2%nat)
  /\ length (List.filter is_load (log (after_ctx E fs)))
     = font_calls (after_ctx E fs).
Proof.
  rewrite loads_in_log_ctx, after_ctx_run.
  assert (Hcalls : font_calls (final_ctx E fs) = S (load_calls E))
    by (unfold final_ctx; now destruct (context_load E)).
  assert (Hglobals : globals (final_ctx E fs) = bindings E)
    by (unfold final_ctx; now destruct (context_load E)).
  rewrite Hcalls, Hglobals. unfold bindings, fonts, load_calls.
  split; [ | split; [ | split ] ].
  - intros f0 f1 -> ->. cbn [fst snd].
    rewrite lookup_insert_ne, !lookup_insert_eq by discriminate.
    now repeat split.
  - now intros f0 e -> _.
  - now intros e ->.
  - reflexivity.
Qed.

Lemma font_loading_calls_witness :
  globals (after_ctx env_ok fs_stale) !! "font_large"
  = Some (VFont (FontObj 0))
  /\ globals (after_ctx env_ok fs_stale) !! "font_medium"
     = Some (VFont (FontObj 1))
  /\ font_calls (after_ctx env_ok fs_stale) = 3%nat
  /\ font_calls (after_ctx env_halffont fs_stale) = 3%nat
  /\ font_calls (after_ctx env_nofont fs_stale) = 2%nat.
Proof.
  pose proof (font_loading_calls env_ok fs_stale) as (Hboth & _).
  pose proof (font_loading_calls env_halffont fs_stale) as (_ & Hhalf & _).
  pose proof (font_loading_calls env_nofont fs_stale) as (_ & _ & Hnone & _).
  destruct (Hboth (FontObj 0) (FontObj 1) eq_refl eq_refl) as (Hl & Hm & Hc).
  split; [ exact Hl | split; [ exact Hm | split; [ exact Hc | split ] ] ].
  - exact (Hhalf (FontObj 0) KeyboardInterrupt eq_refl eq_refl).
  - exact (Hnone (OSError 2) eq_refl).
Defined.

(** X5: a font failure that lasts is not survived.  When the load that
    the drawing context makes for itself raises, the run ends with that
    exception inside the first [draw.text]: the canvas is still blank
    white, no rectangle is drawn, nothing is saved or printed, and the
    files are as they were. *)
Theorem lasting_font_failure_aborts E fs e :
  context_load E = Raise e ->
  result_ctx E fs = Raise e
  /\ (forall x y, 0 <= x < 1000 -> 0 <= y < 1000 ->
        pixel (after_ctx E fs) (x, y) = Some white)
  /\ files (after_ctx E fs) = fs
  /\ stdout (after_ctx E fs) = EmptyString
  /\ List.filter is_text (log (after_ctx E fs))
     = [EvText (500, 400) "TEST LISTING" "red" None "mm"]
  /\ List.filter (fun ev => is_rectangle ev || is_save ev || is_print ev)
       (log (after_ctx E fs)) = [].
Proof.
  intros Hl. rewrite result_ctx_run, after_ctx_run.
  unfold outcome_ctx, final_ctx, pixel, img_of. rewrite Hl.
  cbn [heap files stdout log globals]. unfold bindings.
  rewrite !lookup_insert_ne, !lookup_insert_eq by discriminate.
  rewrite !filter_ctx_prefix by reflexivity.
  repeat split.
  intros x y Hx Hy. cbn [lookup list_lookup]. unfold getpixel, blank.
  replace (in_image _ x y) with true; [ reflexivity | ].
  symmetry. apply in_image_spec. cbn. lia.
Qed.

Lemma lasting_font_failure_aborts_witness :
  result_ctx env_nofont fs_stale = Raise (OSError 2)
  /\ pixel (after_ctx env_nofont fs_stale) (500, 725) = Some white
  /\ files (after_ctx env_nofont fs_stale) = fs_stale.
Proof.
  pose proof (lasting_font_failure_aborts env_nofont fs_stale (OSError 2)
                eq_refl) as (Hr & Hp & Hf & _).
  split; [ exact Hr | split; [ apply Hp; lia | exact Hf ] ].
Defined.

(** X6: a second run that ends well leaves the files as a first run that
    ended well left them, when both have the same renderer and codec and
    their drawing contexts load the same default font. *)
Theorem rerun_keeps_files E E' fs :
  text_mask E = text_mask E' -> jpeg_scan E = jpeg_scan E' ->
  context_load E = context_load E' ->
  result_ctx E fs = Ok tt ->
  result_ctx E' (files (after_ctx E fs)) = Ok tt ->
  files (after_ctx E' (files (after_ctx E fs))) = files (after_ctx E fs).
Proof.
  intros Ht Hj Hc. rewrite !result_ctx_run, !after_ctx_run.
  unfold outcome_ctx, outcome, final_ctx. rewrite <- Hc.
  destruct (context_load E) as [f|e]; [ | discriminate ].
  destruct (open_for_write E out_path); [ discriminate | ].
  destruct (open_for_write E' out_path); [ discriminate | ].
  intros _ _. cbn [files]. rewrite insert_insert_eq.
  now rewrite (drawn_by_ext E' E (Some f) (Some f)), Hj by now rewrite Ht.
Qed.

Lemma rerun_keeps_files_witness :
  files (after_ctx env_ok (files (after_ctx env_ok fs_stale)))
  = files (after_ctx env_ok fs_stale).
Proof.
  apply (rerun_keeps_files env_ok env_ok fs_stale); reflexivity.
Defined.

(** X7: the library calls of a run, all of them and in order: the image
    is created and the drawing context made, then one or two
    [load_default] calls of the [try], then the first [draw.text] and the
    [load_default] call it makes; if that load raises nothing follows,
    otherwise the two other texts, the three rectangles and the save
    follow, and the print only if the run ends well. *)
Theorem call_sequence E fs :
  exists n,
    (n = 1 \/ n = 2)%nat
    /\ log (after_ctx E fs)
       = ([EvNew "RGB" (1000, 1000) "white"; EvDraw 0]
            ++ replicate n EvLoadDefault
            ++ [ EvText (500, 400) "TEST LISTING" "red" None "mm";
                 EvLoadDefault ]
            ++ match context_load E with
               | Raise _ => []
               | Ok _ =>
                   [ EvText (500, 500) "Wire Harness" "black" None "mm";
                     EvText (500, 600) "DELETE ME" "red" None "mm";
                     EvRectangle [200; 700; 800; 750] "black";
                     EvRectangle [150; 680; 250; 770] "gray";
                     EvRectangle [750; 680; 850; 770] "gray";
                     EvSave "test-images/test-wire-harness.jpg" "JPEG" 95 ]
                     ++ match result_ctx E fs with
                        | Ok _ =>
                            [EvPrint
                               "Test image created: test-images/test-wire-harness.jpg"]
                        | Raise _ => []
                        end
               end)%list.
Proof.
  exists (load_calls E). split.
  - unfold load_calls. destruct (font_load E 0%nat); auto.
  - rewrite result_ctx_run, after_ctx_run.
    unfold outcome_ctx, outcome, final_ctx, calls_to_first_text,
      calls_after_first_text.
    destruct (context_load E); cbn [log app];
      rewrite <- ?app_assoc; cbn [app].
    + now destruct (open_for_write E out_path).
    + reflexivity.
Qed.
